(** * Worldwide Weather: the classification and formatting core of App.js

    A shallow embedding of the pure utilities of [src/App.js]
    ([getWeatherType], [getWindDirection], [getUVLevel],
    [calculateDewPoint], [convertTemp]),
    of the theme table [WEATHER_THEMES] and of the state transitions of
    the [App] component ([fetchWeatherByCity], [fetchWeatherByCoords],
    [fetchOneCallData], the effect that recomputes the weather type).

    Conventions of the embedding.
    - A JavaScript value that may be [undefined] is an [optional]; the
      [weather] state, which is [null] until a snapshot is loaded, is an
      [option].
    - A JavaScript exception is the [Throw] case of [completion]; an
      async function of the component is an [App.action], a state and
      exception monad over the component's [useState] cells.
    - The provider's documents are records of the properties that the
      code reads, each of them possibly absent.
    - Condition codes are integers ([Z]); the other numbers are exact
      rationals ([Q]).  The comparisons of the source are exact on
      binary64 numbers, which are rationals; its products, quotients and
      sums are taken exactly here, without the binary64 rounding of each
      result.  [Math.round x] is [Qfloor (x + 1/2)], the nearest integer
      with a tie going up, and [%] is the truncating [Z.rem].
    - Module [Binary64] has the numeric utilities on the kernel's
      binary64 numbers, each operation rounded as the source rounds it:
      the statements on [convertTemp] in Fahrenheit and on
      [calculateDewPoint] are about these.  The language fixes
      [Math.log] at a few arguments only and leaves the rest to the
      engine; the engine's part is a parameter of
      [Binary64.calculateDewPoint].
    - Module [Format] has the formatters ([formatTime], [formatHour],
      [formatVisibility]); timestamps, offsets and counts of meters are
      integers, and the one quotient of [formatVisibility] is the
      binary64 one.  Module [Screen] has what the render of the
      component computes from its state, and module [Session] the
      remaining handlers ([handleSearch], [getLocation]) and the
      sequences of events of the component. *)

From Stdlib Require Import ZArith QArith Qround Reals String Ascii List Bool.
From Stdlib Require Import Lia Psatz Floats DecimalString.
Import ListNotations.

Local Open Scope string_scope.
Local Open Scope Z_scope.

(** ** JavaScript values *)

Module JS.

(** A value that may be [undefined]. *)
Inductive optional (A : Type) : Type :=
| undefined : optional A
| defined (a : A) : optional A.
Arguments undefined {A}.
Arguments defined {A} a.

(** Exceptions: a [TypeError] raised by the engine (its text is the
    engine's own, kept as a description of the failed access) and an
    [Error] created by the program or by a rejected promise. *)
Inductive exn : Type :=
| TypeError (what : string)
| Error (text : string).

(** [err.message] *)
Definition message (e : exn) : string :=
  match e with
  | TypeError what => what
  | Error text => text
  end.

(** The outcome of evaluating an expression or a block. *)
Inductive completion (A : Type) : Type :=
| Normal (a : A) : completion A
| Throw (e : exn) : completion A.
Arguments Normal {A} a.
Arguments Throw {A} e.

Definition bind {A B : Type} (c : completion A) (k : A -> completion B)
  : completion B :=
  match c with
  | Normal a => k a
  | Throw e => Throw e
  end.

(** [o.p] where [o] itself may be [undefined]: reading a property of
    [undefined] throws, reading an absent property gives [undefined]. *)
Definition prop {A B : Type} (name : string) (o : optional A)
    (field : A -> optional B) : completion (optional B) :=
  match o with
  | undefined =>
      Throw (TypeError ("Cannot read properties of undefined (reading '"
                          ++ name ++ "')"))
  | defined a => Normal (field a)
  end.

(** [a[i]] on an array: [undefined] outside of the array. *)
Definition at_index {A : Type} (a : list A) (i : Z) : optional A :=
  if i <? 0 then undefined
  else match nth_error a (Z.to_nat i) with
       | Some x => defined x
       | None => undefined
       end.

(** [o[0]] where [o] may be [undefined]. *)
Definition elem0 {A : Type} (o : optional (list A))
  : completion (optional A) :=
  match o with
  | undefined =>
      Throw (TypeError "Cannot read properties of undefined (reading '0')")
  | defined a => Normal (at_index a 0)
  end.

(** [s.includes(sub)] on strings. *)
Fixpoint includes (s sub : string) : bool :=
  if prefix sub s then true
  else match s with
       | EmptyString => false
       | String _ rest => includes rest sub
       end.

(** [o.includes(sub)] where [o] may be [undefined]. *)
Definition call_includes (o : optional string) (sub : string)
  : completion bool :=
  match o with
  | undefined =>
      Throw (TypeError
               "Cannot read properties of undefined (reading 'includes')")
  | defined s => Normal (includes s sub)
  end.

(** Relational operators against a numeric literal.  [undefined]
    converts to NaN, and every comparison with NaN is false. *)
Definition ge (x : optional Z) (n : Z) : bool :=
  match x with undefined => false | defined v => n <=? v end.
Definition lt (x : optional Z) (n : Z) : bool :=
  match x with undefined => false | defined v => v <? n end.
Definition le (x : optional Z) (n : Z) : bool :=
  match x with undefined => false | defined v => v <=? n end.
(** [x === n] *)
Definition strict_eq (x : optional Z) (n : Z) : bool :=
  match x with undefined => false | defined v => v =? n end.

(** [Math.round] *)
Definition Math_round (x : Q) : Z := Qfloor (x + (1 # 2)).

End JS.

Import JS.

Declare Scope js_scope.
Notation "x <- c ;; k" := (bind c (fun x => k))
  (at level 61, c at next level, right associativity) : js_scope.
Local Open Scope js_scope.

(** ** The provider's payload, as far as the code reads it *)

(** One element of [weatherData.weather]: the condition code [id] and
    the icon code [icon]. *)
Record condition : Type := mkCondition {
  id : optional Z;
  icon : optional string
}.

(** [weatherData.coord] *)
Record coordinates : Type := mkCoord {
  lat : optional Q;
  lon : optional Q
}.

(** The current-weather document. *)
Record weather_json : Type := mkWeather {
  weather : optional (list condition);
  coord : optional coordinates;
  name : optional string
}.

(** The [weather] state and the argument of [getWeatherType]: [None] is
    [null] (no snapshot), which is the only falsy value it takes. *)
Definition snapshot : Type := option weather_json.

(** ** getWeatherType (App.js, lines 117-143) *)

Definition getWeatherType (weatherData : snapshot) : completion string :=
  match weatherData with
  | None => Normal "default"
  | Some data =>
      w0 <- elem0 (weather data) ;;
      iconCode <- prop "icon" w0 icon ;;
      w0' <- elem0 (weather data) ;;
      weatherId <- prop "id" w0' id ;;
      isNight <- call_includes iconCode "n" ;;
      if ge weatherId 200 && lt weatherId 300 then Normal "thunderstorm"
      else if ge weatherId 300 && lt weatherId 600 then Normal "rain"
      else if ge weatherId 600 && lt weatherId 700 then Normal "snow"
      else if ge weatherId 801 && le weatherId 804
           then Normal (if isNight then "night" else "cloudy")
      else if strict_eq weatherId 800
           then Normal (if isNight then "night" else "sunny")
      else if ge weatherId 700 && lt weatherId 800 then Normal "cloudy"
      else Normal (if isNight then "night" else "default")
  end.

(** A snapshot that has the two fields the classifier reads. *)
Definition reading (code : Z) (iconCode : string) : snapshot :=
  Some (mkWeather (defined [mkCondition (defined code) (defined iconCode)])
                  undefined undefined).


(** ** WEATHER_THEMES (App.js, lines 50-86) *)

Record theme : Type := mkTheme {
  background : string;
  cardBg : string;
  accent : string
}.

(** The object literal, as its list of own properties. *)
Definition WEATHER_THEMES : list (string * theme) :=
  [ ("thunderstorm",
     mkTheme "#0a0814" "rgba(255, 255, 255, 0.08)" "#9D7BD8");
    ("rain", mkTheme "#0f0f1a" "rgba(255, 255, 255, 0.08)" "#6B8DD6");
    ("snow", mkTheme "#3a4a5a" "rgba(255, 255, 255, 0.1)" "#A8D5E5");
    ("cloudy", mkTheme "#2d3a4a" "rgba(255, 255, 255, 0.08)" "#8EAEC4");
    ("sunny", mkTheme "#4A90A4" "rgba(255, 255, 255, 0.15)" "#FFD93D");
    ("night", mkTheme "#0a0a1a" "rgba(255, 255, 255, 0.06)" "#C9B8FF");
    ("default", mkTheme "#1a2a3a" "rgba(255, 255, 255, 0.08)" "#64B5F6") ].

(** [o[key]] on an object literal: the own property, or [undefined]. *)
Fixpoint get_property {A : Type} (o : list (string * A)) (key : string)
  : optional A :=
  match o with
  | [] => undefined
  | (k, v) :: rest => if String.eqb k key then defined v
                      else get_property rest key
  end.

(** [a || b] where [a] is an object or [undefined]. *)
Definition or_else {A : Type} (a b : optional A) : optional A :=
  match a with
  | defined x => defined x
  | undefined => b
  end.

(** [const theme = WEATHER_THEMES[weatherType] || WEATHER_THEMES.default]
    (App.js, line 1304) *)
Definition theme_of (weatherType : string) : optional theme :=
  or_else (get_property WEATHER_THEMES weatherType)
          (get_property WEATHER_THEMES "default").

(** ** getWindDirection (App.js, lines 204-209) *)

Definition directions : list string :=
  ["N"; "NE"; "E"; "SE"; "S"; "SW"; "W"; "NW"].

(** [Math.round(degrees / 45) % 8] *)
Definition wind_index (degrees : Q) : Z :=
  Z.rem (Math_round (degrees / (45 # 1))) 8.

Definition getWindDirection (degrees : optional Q) : optional string :=
  match degrees with
  | undefined => defined ""
  | defined d => at_index directions (wind_index d)
  end.

(** ** getUVLevel (App.js, lines 217-223) *)

Record uv_level : Type := mkUV {
  label : string;
  color : string
}.

Definition getUVLevel (uvi : Q) : uv_level :=
  if Qle_bool uvi (2 # 1) then mkUV "Low" "#4CAF50"
  else if Qle_bool uvi (5 # 1) then mkUV "Moderate" "#FFEB3B"
  else if Qle_bool uvi (7 # 1) then mkUV "High" "#FF9800"
  else if Qle_bool uvi (10 # 1) then mkUV "Very High" "#F44336"
  else mkUV "Extreme" "#9C27B0".

(** ** convertTemp (App.js, lines 1313-1316)

    The closure reads the [isCelsius] state; it is a parameter here. *)

Definition convertTemp (isCelsius : bool) (tempCelsius : Q) : Z :=
  if isCelsius then Math_round tempCelsius
  else Math_round ((tempCelsius * (9 # 1) / (5 # 1)) + (32 # 1)).

(** ** The forecast and One Call documents *)

(** One element of [forecastData.list]. *)
Record forecast_item : Type := mkItem {
  dt_txt : optional string;
  main_temp : optional Q
}.

(** The forecast document; [list_] is its [list] property. *)
Record forecast_json : Type := mkForecast {
  list_ : optional (list forecast_item)
}.

(** The One Call document; [current_uvi] is [current.uvi]. *)
Record onecall_json : Type := mkOneCall {
  current_uvi : optional Q
}.

(** [forecastData.list.filter((item) => item.dt_txt.includes('12:00:00'))]
    on the array: the callback runs on the items in order and the first
    exception ends the call. *)
Fixpoint filter_noon (items : list forecast_item)
  : completion (list forecast_item) :=
  match items with
  | [] => Normal []
  | item :: rest =>
      keep <- call_includes (dt_txt item) "12:00:00" ;;
      kept <- filter_noon rest ;;
      Normal (if keep then item :: kept else kept)
  end.

(** The same expression from [forecastData], which [json()] may have
    resolved to [null]. *)
Definition noon_readings (forecastData : option forecast_json)
  : completion (list forecast_item) :=
  match forecastData with
  | None => Throw (TypeError "Cannot read properties of null (reading 'list')")
  | Some data =>
      match list_ data with
      | undefined =>
          Throw (TypeError
                   "Cannot read properties of undefined (reading 'filter')")
      | defined items => filter_noon items
      end
  end.

(** [weatherData.coord.lat] and [weatherData.coord.lon], the arguments
    of the call of [fetchOneCallData] in [fetchWeatherByCity]. *)
Definition coord_args (weatherData : snapshot)
  : completion (optional Q * optional Q) :=
  match weatherData with
  | None => Throw (TypeError "Cannot read properties of null (reading 'coord')")
  | Some data =>
      latitude <- prop "lat" (coord data) lat ;;
      longitude <- prop "lon" (coord data) lon ;;
      Normal (latitude, longitude)
  end.

(** [weatherData.name], the argument of [setCity] in
    [fetchWeatherByCoords]. *)
Definition name_arg (weatherData : snapshot) : completion (optional string) :=
  match weatherData with
  | None => Throw (TypeError "Cannot read properties of null (reading 'name')")
  | Some data => Normal (name data)
  end.

(** ** The App component (App.js, lines 1291-1476)

    An async function runs in stretches, from one [await] to the next.
    The updates of a stretch are rendered together when the function is
    suspended, and the effects of that render have run when it resumes. *)

Module App.

(** The nine [useState] cells. *)
Record state : Type := mkState {
  city : optional string;
  weather : snapshot;
  forecast : list forecast_item;
  oneCallData : option onecall_json;
  loading : bool;
  error : option string;
  weatherType : string;
  isCelsius : bool;
  hasLoadedWeather : bool
}.

(** The initial values given to [useState]. *)
Definition initial : state :=
  mkState (defined "") None [] None false None "default" false false.

(** The mounted component: its state, and whether the [weather] cell
    has received a new value since the last render, which is what the
    dependency list [[weather]] of the effect tests. *)
Record component : Type := mkComponent {
  current : state;
  weather_changed : bool
}.

(** A promise that has settled. *)
Inductive promise (A : Type) : Type :=
| Fulfilled (a : A) : promise A
| Rejected (e : exn) : promise A.
Arguments Fulfilled {A} a.
Arguments Rejected {A} e.

(** What [fetch] resolves to: [response.ok] and [response.json()]. *)
Record response (A : Type) : Type := mkResponse {
  ok : bool;
  json : promise A
}.
Arguments mkResponse {A} ok json.
Arguments ok {A} r.
Arguments json {A} r.

(** A stretch of an async function: it ends normally, with an exception
    that a [catch] may handle, or with the component torn down because
    an effect threw while React was rendering. *)
Inductive result (A : Type) : Type :=
| Done (a : A) (c : component) : result A
| Raised (e : exn) (c : component) : result A
| Crashed (e : exn) : result A.
Arguments Done {A} a c.
Arguments Raised {A} e c.
Arguments Crashed {A} e.

Definition action (A : Type) : Type := component -> result A.

Definition ret {A : Type} (a : A) : action A := fun c => Done a c.

Definition throw {A : Type} (e : exn) : action A := fun c => Raised e c.

Definition and_then {A B : Type} (m : action A) (k : A -> action B)
  : action B :=
  fun c => match m c with
           | Done a c' => k a c'
           | Raised e c' => Raised e c'
           | Crashed e => Crashed e
           end.

(** An expression evaluated inside an action. *)
Definition eval {A : Type} (v : completion A) : action A :=
  match v with
  | Normal a => ret a
  | Throw e => throw e
  end.

(** A state setter that does not touch [weather]. *)
Definition set (f : state -> state) : action unit :=
  fun c => Done tt (mkComponent (f (current c)) (weather_changed c)).

Definition setCity (v : optional string) : action unit :=
  set (fun s => mkState v (weather s) (forecast s) (oneCallData s)
                  (loading s) (error s) (weatherType s) (isCelsius s)
                  (hasLoadedWeather s)).

Definition setForecast (v : list forecast_item) : action unit :=
  set (fun s => mkState (city s) (weather s) v (oneCallData s)
                  (loading s) (error s) (weatherType s) (isCelsius s)
                  (hasLoadedWeather s)).

Definition setOneCallData (v : option onecall_json) : action unit :=
  set (fun s => mkState (city s) (weather s) (forecast s) v
                  (loading s) (error s) (weatherType s) (isCelsius s)
                  (hasLoadedWeather s)).

Definition setLoading (v : bool) : action unit :=
  set (fun s => mkState (city s) (weather s) (forecast s) (oneCallData s)
                  v (error s) (weatherType s) (isCelsius s)
                  (hasLoadedWeather s)).

Definition setError (v : option string) : action unit :=
  set (fun s => mkState (city s) (weather s) (forecast s) (oneCallData s)
                  (loading s) v (weatherType s) (isCelsius s)
                  (hasLoadedWeather s)).

Definition setWeatherType (v : string) : action unit :=
  set (fun s => mkState (city s) (weather s) (forecast s) (oneCallData s)
                  (loading s) (error s) v (isCelsius s)
                  (hasLoadedWeather s)).

Definition setIsCelsius (v : bool) : action unit :=
  set (fun s => mkState (city s) (weather s) (forecast s) (oneCallData s)
                  (loading s) (error s) (weatherType s) v
                  (hasLoadedWeather s)).

Definition setHasLoadedWeather (v : bool) : action unit :=
  set (fun s => mkState (city s) (weather s) (forecast s) (oneCallData s)
                  (loading s) (error s) (weatherType s) (isCelsius s) v).

(** [setWeather]: a document from [json()] is a new object, [null] over
    [null] is no change. *)
Definition setWeather (v : snapshot) : action unit :=
  fun c =>
    let s := current c in
    let changed := match v, weather s with
                   | None, None => false
                   | _, _ => true
                   end in
    Done tt (mkComponent
               (mkState (city s) v (forecast s) (oneCallData s)
                  (loading s) (error s) (weatherType s) (isCelsius s)
                  (hasLoadedWeather s))
               (weather_changed c || changed)).

Declare Scope action_scope.
Delimit Scope action_scope with action.
Notation "x <- m ;; k" := (and_then m (fun x => k))
  (at level 61, m at next level, right associativity) : action_scope.
Notation "m ;; k" := (and_then m (fun _ => k))
  (at level 61, right associativity) : action_scope.
Local Open Scope action_scope.

(** The effect of lines 1472-1476:
    [if (weather) setWeatherType(getWeatherType(weather))].  An exception
    here is thrown inside React, outside of every [try] of the
    component: the component is torn down. *)
Definition useEffect_weather : action unit :=
  fun c =>
    match weather (current c) with
    | Some _ =>
        match getWeatherType (weather (current c)) with
        | Normal type => setWeatherType type c
        | Throw e => Crashed e
        end
    | None => Done tt c
    end.

(** React renders the batched updates and runs the effect when its
    dependency [weather] has changed. *)
Definition render : action unit :=
  fun c =>
    if weather_changed c
    then useEffect_weather (mkComponent (current c) false)
    else Done tt c.

(** [await p]: the function is suspended, React renders what the
    stretch before has set, and the function resumes when [p] settles. *)
Definition await {A : Type} (p : promise A) : action A :=
  render ;;
  match p with
  | Fulfilled a => ret a
  | Rejected e => throw e
  end.

(** [try { body } catch (err) { handler } finally { finalizer }] *)
Definition try_catch_finally {A : Type} (body : action A)
    (handler : exn -> action A) (finalizer : action unit) : action A :=
  fun c =>
    let attempt := match body c with
                   | Raised e c' => handler e c'
                   | other => other
                   end in
    match attempt with
    | Done a c' => (finalizer ;; ret a) c'
    | Raised e c' => (finalizer ;; throw e) c'
    | Crashed e => Crashed e
    end.

(** [try { body } catch (err) { handler }] *)
Definition try_catch {A : Type} (body : action A)
    (handler : exn -> action A) : action A :=
  try_catch_finally body handler (ret tt).

(** [fetchOneCallData] (lines 1325-1352).  [v30] and [v25] are what the
    two One Call requests settle to. *)
Definition fetchOneCallData
    (v30 v25 : promise (response (option onecall_json))) : action unit :=
  try_catch
    (response <- await v30 ;;
     if ok response
     then data <- await (json response) ;;
          setOneCallData data
     else response25 <- await v25 ;;
          if ok response25
          then data <- await (json response25) ;;
               setOneCallData data
          else setOneCallData None)
    (fun err => setOneCallData None).

(** The call [fetchOneCallData(lat, lon)] is not awaited: the caller
    goes on once the callee has issued its first request, and the
    callee's updates arrive as a run of [fetchOneCallData] of their
    own. *)
Definition start_fetchOneCallData (latitude longitude : optional Q)
  : action unit :=
  ret tt.

(** [fetchWeatherByCity] (lines 1357-1394).  [weatherFetch] and
    [forecastFetch] are what the two requests settle to. *)
Definition fetchWeatherByCity (cityName : string)
    (weatherFetch : promise (response snapshot))
    (forecastFetch : promise (response (option forecast_json)))
  : action unit :=
  try_catch_finally
    (setLoading true ;;
     setError None ;;
     weatherResponse <- await weatherFetch ;;
     (if negb (ok weatherResponse)
      then throw (Error "City not found") else ret tt) ;;
     weatherData <- await (json weatherResponse) ;;
     setWeather weatherData ;;
     setHasLoadedWeather true ;;
     args <- eval (coord_args weatherData) ;;
     start_fetchOneCallData (fst args) (snd args) ;;
     forecastResponse <- await forecastFetch ;;
     forecastData <- await (json forecastResponse) ;;
     readings <- eval (noon_readings forecastData) ;;
     setForecast readings)
    (fun err =>
       setError (Some (message err)) ;;
       setWeather None ;;
       setForecast [] ;;
       setOneCallData None)
    (setLoading false).

(** [fetchWeatherByCoords] (lines 1399-1430) *)
Definition fetchWeatherByCoords (latitude longitude : Q)
    (weatherFetch : promise (response snapshot))
    (forecastFetch : promise (response (option forecast_json)))
  : action unit :=
  try_catch_finally
    (setLoading true ;;
     setError None ;;
     weatherResponse <- await weatherFetch ;;
     weatherData <- await (json weatherResponse) ;;
     setWeather weatherData ;;
     cityOfData <- eval (name_arg weatherData) ;;
     setCity cityOfData ;;
     setHasLoadedWeather true ;;
     start_fetchOneCallData (defined latitude) (defined longitude) ;;
     forecastResponse <- await forecastFetch ;;
     forecastData <- await (json forecastResponse) ;;
     readings <- eval (noon_readings forecastData) ;;
     setForecast readings)
    (fun err =>
       setError (Some "Failed to fetch weather data") ;;
       setOneCallData None)
    (setLoading false).

(** [toggleTemperatureUnit] (lines 1465-1467) *)
Definition toggleTemperatureUnit : action unit :=
  fun c => setIsCelsius (negb (isCelsius (current c))) c.

(** An event handled from state [s]: the action, then the render that
    follows its last stretch. *)
Definition run (a : action unit) (s : state) : result unit :=
  (a ;; render) (mkComponent s false).

(** The state an event leaves, when the component survives it. *)
Definition settled (r : result unit) : option state :=
  match r with
  | Done _ c => Some (current c)
  | Raised _ _ => None
  | Crashed _ => None
  end.

(** The fetch went through its [catch] block: [setError(null)] opens
    both functions and only their [catch] sets an error. *)
Definition failed (s : state) : bool :=
  match error s with
  | Some _ => true
  | None => false
  end.

(** A city lookup that failed: the request was rejected, or the provider
    answered that it has no such city ([response.ok] is false). *)
Definition lookup_failed (weatherFetch : promise (response snapshot)) : bool :=
  match weatherFetch with
  | Rejected _ => true
  | Fulfilled weatherResponse => negb (ok weatherResponse)
  end.

(** A search: the city name and what the two requests settle to. *)
Record search : Type := mkSearch {
  search_city : string;
  search_weather : promise (response snapshot);
  search_forecast : promise (response (option forecast_json))
}.

(** The searches of a session, one after the other; [None] when the
    component does not survive one of them. *)
Fixpoint searches (l : list search) (s : state) : option state :=
  match l with
  | [] => Some s
  | q :: rest =>
      match settled (run (fetchWeatherByCity (search_city q)
                            (search_weather q) (search_forecast q)) s) with
      | Some s' => searches rest s'
      | None => None
      end
  end.

(** Frame conditions: the observation [f] of the state is the same
    after the action, however it ends short of a teardown. *)
Definition unchanged {A B : Type} (f : state -> B) (m : action A) : Prop :=
  forall c,
    match m c with
    | Done _ c' => f (current c') = f (current c)
    | Raised _ c' => f (current c') = f (current c)
    | Crashed _ => True
    end.

(** The same, for the runs of the action that end with an exception. *)
Definition unchanged_on_raise {A B : Type} (f : state -> B) (m : action A)
  : Prop :=
  forall c,
    match m c with
    | Raised _ c' => f (current c') = f (current c)
    | _ => True
    end.

(** [f] does not read the [weatherType] cell. *)
Definition ignores_weatherType {B : Type} (f : state -> B) : Prop :=
  forall s v,
    f (mkState (city s) (weather s) (forecast s) (oneCallData s)
         (loading s) (error s) v (isCelsius s) (hasLoadedWeather s))
    = f s.

End App.

(** ** The specification's wording *)

Module Spec.

(** The seven weather types. *)
Definition weather_types : list string :=
  ["thunderstorm"; "rain"; "snow"; "cloudy"; "sunny"; "night"; "default"].

(** A classification rule: the codes it applies to, and the type it
    gives by night and by day. *)
Record rule : Type := mkRule {
  applies : Z -> bool;
  by_night : string;
  by_day : string
}.

(** A range of codes, half-open on the upper bound. *)
Definition half_open (lower upper : Z) (code : Z) : bool :=
  (lower <=? code) && (code <? upper).

(** The seven rules, in their order of precedence. *)
Definition rules : list rule :=
  [ mkRule (half_open 200 300) "thunderstorm" "thunderstorm";
    mkRule (half_open 300 600) "rain" "rain";
    mkRule (half_open 600 700) "snow" "snow";
    mkRule (fun code => (801 <=? code) && (code <=? 804)) "night" "cloudy";
    mkRule (fun code => code =? 800) "night" "sunny";
    mkRule (half_open 700 800) "cloudy" "cloudy";
    mkRule (fun _ => true) "night" "default" ].

(** First match wins. *)
Fixpoint first_match (rs : list rule) (code : Z) (nighttime : bool)
  : option string :=
  match rs with
  | [] => None
  | r :: rest =>
      if applies r code
      then Some (if nighttime then by_night r else by_day r)
      else first_match rest code nighttime
  end.

Definition classify (code : Z) (nighttime : bool) : option string :=
  first_match rules code nighttime.

(** The last character of a string, if it has one. *)
Fixpoint last_char (s : string) : option ascii :=
  match s with
  | EmptyString => None
  | String c EmptyString => Some c
  | String _ rest => last_char rest
  end.

(** The icon codes of the provider: two digits, then [d] or [n]. *)
Definition is_digit (c : ascii) : bool :=
  (48 <=? Z.of_nat (nat_of_ascii c)) && (Z.of_nat (nat_of_ascii c) <=? 57).

Definition provider_icon (s : string) : bool :=
  match s with
  | String a (String b (String c EmptyString)) =>
      is_digit a && is_digit b
      && (Ascii.eqb c "d" || Ascii.eqb c "n")
  | _ => false
  end.

(** The icon indicates nighttime: its last character is [n]. *)
Definition nighttime (iconCode : string) : bool :=
  match last_char iconCode with
  | Some c => Ascii.eqb c "n"
  | None => false
  end.

(** [n] is an integer nearest to [x]. *)
Definition nearest (x : Q) (n : Z) : Prop :=
  (x - (1 # 2) <= inject_Z n /\ inject_Z n <= x + (1 # 2))%Q.




(** The UV buckets, each inclusive on its upper bound. *)
Inductive uv_bucket (uvi : Q) : string -> Prop :=
| uv_low : (uvi <= 2 # 1)%Q -> uv_bucket uvi "Low"
| uv_moderate :
    (2 # 1 < uvi)%Q -> (uvi <= 5 # 1)%Q -> uv_bucket uvi "Moderate"
| uv_high : (5 # 1 < uvi)%Q -> (uvi <= 7 # 1)%Q -> uv_bucket uvi "High"
| uv_very_high :
    (7 # 1 < uvi)%Q -> (uvi <= 10 # 1)%Q -> uv_bucket uvi "Very High"
| uv_extreme : (10 # 1 < uvi)%Q -> uv_bucket uvi "Extreme".

(** The compass point of the index [n mod 8] in the list
    [N, NE, E, SE, S, SW, W, NW]. *)
Definition compass_point (n : Z) : option string :=
  nth_error ["N"; "NE"; "E"; "SE"; "S"; "SW"; "W"; "NW"]
            (Z.to_nat (n mod 8)).

(** The [rain] entry of the theme table. *)
Definition rain_entry : theme :=
  mkTheme "#0f0f1a" "rgba(255, 255, 255, 0.08)" "#6B8DD6".

End Spec.

(** ** The numeric utilities on binary64 numbers

    The numeric utilities on the kernel's binary64 numbers, whose
    operations round as those of JavaScript do: the source as it
    computes, where the rounding of a product, a quotient or a sum
    matters. *)

Module Binary64.

(** The rational that a finite number denotes; [None] for NaN and the
    infinities. *)
Definition exact (x : float) : option Q :=
  match Prim2SF x with
  | S754_zero _ => Some (0 # 1)
  | S754_finite negative m e =>
      let magnitude :=
        if 0 <=? e then inject_Z (Z.pos m * 2 ^ e)
        else Z.pos m # Z.to_pos (2 ^ (- e)) in
      Some (if negative then Qopp magnitude else magnitude)
  | S754_infinity _ => None
  | S754_nan => None
  end.

(** [Math.round] of a finite number is an integer, computed exactly. *)
Definition Math_round (x : float) : option Z :=
  option_map JS.Math_round (exact x).

(** [Math.round(degrees / 45) % 8] *)
Definition wind_index (degrees : float) : option Z :=
  option_map (fun rounded => Z.rem rounded 8)
             (Math_round (PrimFloat.div degrees 45%float)).

Definition getWindDirection (degrees : optional float) : optional string :=
  match degrees with
  | undefined => defined ""
  | defined d =>
      match wind_index d with
      | Some index => at_index directions index
      | None => undefined
      end
  end.

Definition getUVLevel (uvi : float) : uv_level :=
  if PrimFloat.leb uvi 2%float then mkUV "Low" "#4CAF50"
  else if PrimFloat.leb uvi 5%float then mkUV "Moderate" "#FFEB3B"
  else if PrimFloat.leb uvi 7%float then mkUV "High" "#FF9800"
  else if PrimFloat.leb uvi 10%float then mkUV "Very High" "#F44336"
  else mkUV "Extreme" "#9C27B0".

Definition convertTemp (isCelsius : bool) (tempCelsius : float) : option Z :=
  if isCelsius then Math_round tempCelsius
  else Math_round
         (PrimFloat.add
            (PrimFloat.div (PrimFloat.mul tempCelsius 9%float) 5%float)
            32%float).

(** The number that the literal [2.01] denotes. *)
Definition literal_2_01 : float := 0x1.0147ae147ae14p+1%float.

(** The number just below [2.5]. *)
Definition below_2_5 : float := 0x1.3ffffffffffffp+1%float.

(** An integer as a binary64 number; exact below 2^53 in absolute
    value. *)
Definition integer (n : Z) : float :=
  if n <? 0 then PrimFloat.opp (PrimFloat.of_uint63 (Uint63.of_Z (- n)))
  else PrimFloat.of_uint63 (Uint63.of_Z n).

(** The number that a decimal with two decimals denotes, [k]
    hundredths: the binary64 number nearest to [k / 100], which the
    correctly rounded quotient of the two integers is. *)
Definition hundredths (k : Z) : float :=
  PrimFloat.div (integer k) 100%float.

(** [Math.log].  The language fixes the result at 1 (it is +0), at zero,
    below zero, at +Infinity and at NaN; everywhere else the result is
    an approximation of the natural logarithm that is left to the
    engine, [approximation] here. *)
Definition Math_log (approximation : float -> float) (x : float) : float :=
  if PrimFloat.eqb x 1%float then 0%float
  else if PrimFloat.eqb x 0%float then neg_infinity
  else if PrimFloat.ltb x 0%float then nan
  else if PrimFloat.eqb x infinity then infinity
  else if PrimFloat.eqb x x then approximation x
  else nan.

(** The numbers that the literals [17.27] and [237.7] denote. *)
Definition literal_17_27 : float := 0x1.1451eb851eb85p+4%float.
Definition literal_237_7 : float := 0x1.db66666666666p+7%float.

(** [calculateDewPoint] (App.js, lines 246-252); [None] when the result
    is not a finite number (NaN or an infinity, which [Math.round]
    returns as they are). *)
Definition calculateDewPoint (approximation : float -> float)
    (tempCelsius humidity : float) : option Z :=
  let a := literal_17_27 in
  let b := literal_237_7 in
  let alpha :=
    PrimFloat.add
      (PrimFloat.div (PrimFloat.mul a tempCelsius)
                     (PrimFloat.add b tempCelsius))
      (Math_log approximation (PrimFloat.div humidity 100%float)) in
  let dewPoint :=
    PrimFloat.div (PrimFloat.mul b alpha) (PrimFloat.sub a alpha) in
  Math_round dewPoint.






End Binary64.

(** ** A session over two locations *)

Module Scenario.

(** The provider's documents for a first location. *)
Definition oslo : weather_json :=
  mkWeather (defined [mkCondition (defined 501) (defined "10d")])
            (defined (mkCoord (defined (5991 # 100)) (defined (1075 # 100))))
            (defined "Oslo").

Definition oslo_noon : forecast_item :=
  mkItem (defined "2024-05-01 12:00:00") (defined (23 # 2)).

Definition oslo_evening : forecast_item :=
  mkItem (defined "2024-05-01 18:00:00") (defined (17 # 2)).

Definition oslo_forecast : forecast_json :=
  mkForecast (defined [oslo_noon; oslo_evening]).

(** The provider's current weather for a second location. *)
Definition lima : weather_json :=
  mkWeather (defined [mkCondition (defined 800) (defined "01n")])
            (defined (mkCoord (defined (-1205 # 100))
                              (defined (-7704 # 100))))
            (defined "Lima").

(** A request that succeeds with the document [doc]. *)
Definition answered {A : Type} (doc : A) : App.promise (App.response A) :=
  App.Fulfilled (App.mkResponse true (App.Fulfilled doc)).

(** A request that the network fails. *)
Definition unreachable {A : Type} : App.promise (App.response A) :=
  App.Rejected (Error "Network request failed").

(** The provider's answer to an unknown city: status 404. *)
Definition not_found : App.promise (App.response snapshot) :=
  App.Fulfilled (App.mkResponse false (App.Fulfilled None)).

(** The state that shows the first location. *)
Definition showing_oslo : App.state :=
  App.mkState (defined "Oslo") (Some oslo) [oslo_noon]
    (Some (mkOneCall (defined (3 # 1)))) false None "rain" false true.

(** The provider's answer with an error document, which has none of the
    fields of a snapshot. *)
Definition error_document : weather_json :=
  mkWeather undefined undefined undefined.

End Scenario.

(** ** Numbers as text, dates and the formatters (App.js, lines 171-237) *)

Module Format.

(** The text of an integer number, as [String(n)] and a template give
    it: the decimal digits, with a minus sign below zero.  (A number of
    21 digits or more is written with an exponent; the integers here are
    far below.) *)
Definition integer_text (n : Z) : string :=
  NilZero.string_of_int (Z.to_int n).

(** A number that is an integer or NaN, and its text. *)
Definition number_text (n : option Z) : string :=
  match n with
  | Some z => integer_text z
  | None => "NaN"
  end.

(** [padString] repeated and cut to [n] characters. *)
Fixpoint fill (n : nat) (padString rest : string) : string :=
  match n with
  | O => ""
  | S k =>
      match rest with
      | String ch rest' => String ch (fill k padString rest')
      | EmptyString =>
          match padString with
          | String ch rest' => String ch (fill k padString rest')
          | EmptyString => ""
          end
      end
  end.

(** [s.padStart(targetLength, padString)] *)
Definition padStart (s : string) (targetLength : nat) (padString : string)
  : string :=
  if (targetLength <=? String.length s)%nat then s
  else fill (targetLength - String.length s) padString padString ++ s.

(** The largest time value of a [Date], in milliseconds. *)
Definition max_time : Z := 8640000000000000.

(** [(timestamp + timezoneOffset) * 1000]: an [undefined] operand makes
    the sum NaN. *)
Definition shifted_ms (timestamp timezoneOffset : optional Z) : option Z :=
  match timestamp, timezoneOffset with
  | defined t, defined offset => Some ((t + offset) * 1000)
  | _, _ => None
  end.

(** [new Date(ms)]: its time value, [None] for an invalid date. *)
Definition Date (ms : option Z) : option Z :=
  match ms with
  | Some t => if Z.abs t <=? max_time then Some t else None
  | None => None
  end.

(** [date.getUTCHours()] and [date.getUTCMinutes()]: NaN on an invalid
    date. *)
Definition getUTCHours (date : option Z) : option Z :=
  option_map (fun t => (t / 3600000) mod 24) date.

Definition getUTCMinutes (date : option Z) : option Z :=
  option_map (fun t => (t / 60000) mod 60) date.

(** [hours >= 12 ? 'PM' : 'AM'] *)
Definition meridiem (hours : option Z) : string :=
  match hours with
  | Some h => if 12 <=? h then "PM" else "AM"
  | None => "AM"
  end.

(** [hours % 12 || 12]: zero and NaN are falsy. *)
Definition hour12_of (hours : option Z) : option Z :=
  match hours with
  | Some h => if Z.rem h 12 =? 0 then Some 12 else Some (Z.rem h 12)
  | None => Some 12
  end.

(** [formatTime] (lines 171-180) *)
Definition formatTime (timestamp timezoneOffset : optional Z) : string :=
  let date := Date (shifted_ms timestamp timezoneOffset) in
  let hours := getUTCHours date in
  let minutes := getUTCMinutes date in
  let ampm := meridiem hours in
  let hour12 := hour12_of hours in
  let minuteStr := padStart (number_text minutes) 2 "0" in
  number_text hour12 ++ ":" ++ minuteStr ++ " " ++ ampm.

(** [formatHour] (lines 189-196) *)
Definition formatHour (timestamp timezoneOffset : optional Z)
    (isFirst : bool) : string :=
  if isFirst then "Now"
  else
    let date := Date (shifted_ms timestamp timezoneOffset) in
    let hours := getUTCHours date in
    let ampm := meridiem hours in
    let hour12 := hour12_of hours in
    number_text hour12 ++ ampm.

(** An integer as a binary64 number; exact below 2^53. *)
Definition number_of_integer (n : Z) : float :=
  PrimFloat.of_uint63 (Uint63.of_Z n).

(** [x.toFixed(1)] on the rational [x >= 0] that a number denotes: the
    integer [n] with [n / 10] nearest to [x], the larger one of two, and
    its digits with a point before the last one. *)
Definition toFixed1 (x : Q) : string :=
  let n := Qfloor (x * (10 # 1) + (1 # 2)) in
  integer_text (n / 10) ++ "." ++ integer_text (n mod 10).

(** [km % 1 === 0] *)
Definition is_whole (x : Q) : bool := Qeq_bool (inject_Z (Qfloor x)) x.

(** [formatVisibility] (lines 231-237), on a count of meters that is an
    integer below 2^53 or [undefined].  The quotient is the binary64
    one; [None] stands for a quotient that is not finite, which an
    integer does not give. *)
Definition formatVisibility (meters : optional Z) : option string :=
  match meters with
  | undefined => Some "undefined m"
  | defined m =>
      if 1000 <=? m then
        match Binary64.exact
                (PrimFloat.div (number_of_integer m) 1000%float) with
        | Some km =>
            Some ((if is_whole km then integer_text (Qfloor km)
                   else toFixed1 km) ++ " km")
        | None => None
        end
      else Some (integer_text m ++ " m")
  end.

(** The integers [lower], [lower + 1], ..., [count] of them. *)
Fixpoint range (count : nat) (lower : Z) : list Z :=
  match count with
  | O => []
  | S k => lower :: range k (lower + 1)
  end.

End Format.

(** ** What the screen shows (App.js, lines 1163-1180 and 1478-1830) *)

Module Screen.

(** The components that [WeatherAnimation] chooses from. *)
Inductive animation : Type :=
| QuadrantShowcase
| ThunderstormAnimation
| RainAnimation
| SnowAnimation
| CloudyAnimation
| SunnyAnimation
| NightAnimation.

(** [WeatherAnimation] (lines 1163-1180); [None] is the [null] of the
    [default] case. *)
Definition WeatherAnimation (weatherType : string)
    (showQuadrantShowcase : bool) : option animation :=
  if showQuadrantShowcase then Some QuadrantShowcase
  else if (weatherType =? "thunderstorm")%string
       then Some ThunderstormAnimation
  else if (weatherType =? "rain")%string then Some RainAnimation
  else if (weatherType =? "snow")%string then Some SnowAnimation
  else if (weatherType =? "cloudy")%string then Some CloudyAnimation
  else if (weatherType =? "sunny")%string then Some SunnyAnimation
  else if (weatherType =? "night")%string then Some NightAnimation
  else None.

(** The background animation of the screen (line 1484). *)
Definition background_animation (s : App.state) : option animation :=
  WeatherAnimation (App.weatherType s) (negb (App.hasLoadedWeather s)).

(** The [isRaining] and [isSnowing] properties of the stat cards
    (lines 1642-1643). *)
Definition isRaining (weatherType : string) : bool :=
  (weatherType =? "rain")%string || (weatherType =? "thunderstorm")%string.

Definition isSnowing (weatherType : string) : bool :=
  (weatherType =? "snow")%string.

(** The time labels of the hourly strip (lines 1744-1747):
    [hourly.slice(0, 24).map((hour, index) =>
       formatHour(hour.dt, timezone_offset, index === 0))]; [hourly] is
    given by the [dt] of its items. *)
Fixpoint hour_labels_from (index : nat) (hours : list (optional Z))
    (timezone_offset : optional Z) : list string :=
  match hours with
  | [] => []
  | dt :: rest =>
      Format.formatHour dt timezone_offset (Nat.eqb index 0)
      :: hour_labels_from (S index) rest timezone_offset
  end.

Definition hour_labels (hourly : list (optional Z))
    (timezone_offset : optional Z) : list string :=
  hour_labels_from 0 (firstn 24 hourly) timezone_offset.

(** One bar of the precipitation chart: its height and whether it has
    the accent colour. *)
Record bar : Type := mkBar {
  height : Q;
  accented : bool
}.

(** [Math.max(x, y)] *)
Definition Math_max (x y : Q) : Q := if Qle_bool x y then y else x.

(** [Math.min(x, y)] *)
Definition Math_min (x y : Q) : Q := if Qle_bool x y then x else y.

(** [precipitation > 0] *)
Definition positive (x : Q) : bool := negb (Qle_bool x (0 # 1)).

(** The precipitation chart (lines 1768-1785), on the [precipitation] of
    the items of [minutely]: whether the section is shown,
    [minutely.some(m => m.precipitation > 0)], and its bars,
    [minutely.slice(0, 60).map(...)]. *)
Definition chart_shown (minutely : list Q) : bool := existsb positive minutely.

Definition chart_bars (minutely : list Q) : list bar :=
  map (fun precipitation =>
         mkBar (Math_max (precipitation * (20 # 1)) (2 # 1))
               (positive precipitation))
      (firstn 60 minutely).

(** The width of the UV bar, in percent (line 1706):
    [Math.min(uvi / 11 * 100, 100)]. *)
Definition uv_bar_width (uvi : Q) : Q :=
  Math_min (uvi / (11 # 1) * (100 # 1)) (100 # 1).

End Screen.

(** ** The other handlers of the component (App.js, lines 1435-1467), and
    a session *)

Module Session.

(** Text is held as its UTF-8 bytes. *)
Definition bytes (codes : list nat) : string :=
  string_of_list_ascii (map ascii_of_nat codes).

(** The white space and line terminators that [trim] removes: TAB, LF,
    VT, FF, CR, SP, U+00A0, U+1680, U+2000 to U+200A, U+2028, U+2029,
    U+202F, U+205F, U+3000 and U+FEFF. *)
Definition white_space : list string :=
  map bytes
    [ [9]; [10]; [11]; [12]; [13]; [32]; [194; 160]; [225; 154; 128];
      [226; 128; 128]; [226; 128; 129]; [226; 128; 130]; [226; 128; 131];
      [226; 128; 132]; [226; 128; 133]; [226; 128; 134]; [226; 128; 135];
      [226; 128; 136]; [226; 128; 137]; [226; 128; 138]; [226; 128; 168];
      [226; 128; 169]; [226; 128; 175]; [226; 129; 159]; [227; 128; 128];
      [239; 187; 191] ]%nat.

(** [s] without its first [n] bytes. *)
Fixpoint skip (n : nat) (s : string) : string :=
  match n, s with
  | S k, String _ rest => skip k rest
  | _, _ => s
  end.

(** [s] starts with the bytes of [p]. *)
Fixpoint starts_with (p s : string) : bool :=
  match p, s with
  | EmptyString, _ => true
  | String a p', String b s' => Ascii.eqb a b && starts_with p' s'
  | String _ _, EmptyString => false
  end.

(** [s] without the first of [patterns] that it starts with. *)
Fixpoint strip_one (patterns : list string) (s : string) : option string :=
  match patterns with
  | [] => None
  | p :: others =>
      if starts_with p s then Some (skip (String.length p) s)
      else strip_one others s
  end.

(** [s] without every leading occurrence of [patterns]; [fuel] bounds the
    number of them, and the length of [s] is enough. *)
Fixpoint strip (patterns : list string) (fuel : nat) (s : string) : string :=
  match fuel with
  | O => s
  | S k =>
      match strip_one patterns s with
      | Some rest => strip patterns k rest
      | None => s
      end
  end.

Definition reverse (s : string) : string :=
  string_of_list_ascii (rev (list_ascii_of_string s)).

(** [s.trimStart()], [s.trimEnd()] and [s.trim()] *)
Definition trimStart (s : string) : string :=
  strip white_space (String.length s) s.

Definition trimEnd (s : string) : string :=
  reverse (strip (map reverse white_space) (String.length s) (reverse s)).

Definition trim (s : string) : string := trimEnd (trimStart s).

(** [city.trim()], where the [city] cell may hold [undefined]. *)
Definition city_trim (city : optional string) : completion string :=
  match city with
  | undefined =>
      Throw (TypeError "Cannot read properties of undefined (reading 'trim')")
  | defined text => Normal (trim text)
  end.

(** [handleSearch] (lines 1459-1463), over the function that it calls:
    the call is not awaited, and its run is the rest of the event. *)
Definition handleSearch_with (fetchWeatherByCity : string -> App.action unit)
  : App.action unit :=
  fun c =>
    App.and_then (App.eval (city_trim (App.city (App.current c))))
      (fun trimmed =>
         if (trimmed =? "")%string then App.ret tt
         else App.and_then
                (App.eval (city_trim (App.city (App.current c))))
                (fun cityName => fetchWeatherByCity cityName))
      c.

(** [handleSearch] with [fetchWeatherByCity] and what its two requests
    settle to. *)
Definition handleSearch
    (weatherFetch : App.promise (App.response snapshot))
    (forecastFetch : App.promise (App.response (option forecast_json)))
  : App.action unit :=
  handleSearch_with
    (fun cityName =>
       App.fetchWeatherByCity cityName weatherFetch forecastFetch).

(** What [Location.getCurrentPositionAsync] resolves to: [coords] may be
    absent. *)
Record location_object : Type := mkLocation {
  coords : optional (Q * Q)
}.

(** [location.coords.latitude] and [location.coords.longitude] *)
Definition position_args (location : location_object) : completion (Q * Q) :=
  match coords location with
  | undefined =>
      Throw (TypeError
               "Cannot read properties of undefined (reading 'latitude')")
  | defined position => Normal position
  end.

(** [getLocation] (lines 1435-1455).  [permission] is the [status] that
    the permission request resolves with, [position] what the position
    request settles to. *)
Definition getLocation (permission : App.promise string)
    (position : App.promise location_object)
    (weatherFetch : App.promise (App.response snapshot))
    (forecastFetch : App.promise (App.response (option forecast_json)))
  : App.action unit :=
  App.try_catch
    (App.and_then (App.setLoading true) (fun _ =>
     App.and_then (App.await permission) (fun status =>
     if negb (status =? "granted")%string
     then App.and_then (App.setError (Some "Location permission denied"))
            (fun _ => App.setLoading false)
     else
       App.and_then (App.await position) (fun location =>
       App.and_then (App.eval (position_args location)) (fun args =>
       App.and_then
         (App.fetchWeatherByCoords (fst args) (snd args) weatherFetch
            forecastFetch)
         (fun _ => App.await (App.Fulfilled tt)))))))
    (fun err =>
       App.and_then (App.setError (Some "Could not get location"))
         (fun _ => App.setLoading false)).

(** The events of a session. *)
Inductive event : Type :=
| Typed (text : string)
| Searched (weatherFetch : App.promise (App.response snapshot))
    (forecastFetch : App.promise (App.response (option forecast_json)))
| Located (permission : App.promise string)
    (position : App.promise location_object)
    (weatherFetch : App.promise (App.response snapshot))
    (forecastFetch : App.promise (App.response (option forecast_json)))
| OneCallSettled (v30 v25 : App.promise (App.response (option onecall_json)))
| Toggled.

(** The handler of an event: [onChangeText={setCity}], [handleSearch],
    [getLocation], the settling of a [fetchOneCallData] that a fetch has
    started, [toggleTemperatureUnit]. *)
Definition handler (e : event) : App.action unit :=
  match e with
  | Typed text => App.setCity (defined text)
  | Searched weatherFetch forecastFetch =>
      handleSearch weatherFetch forecastFetch
  | Located permission position weatherFetch forecastFetch =>
      getLocation permission position weatherFetch forecastFetch
  | OneCallSettled v30 v25 => App.fetchOneCallData v30 v25
  | Toggled => App.toggleTemperatureUnit
  end.

(** The events one after the other; [None] when the component does not
    survive one of them, or a handler ends with an exception. *)
Fixpoint session (events : list event) (s : App.state) : option App.state :=
  match events with
  | [] => Some s
  | e :: rest =>
      match App.settled (App.run (handler e) s) with
      | Some s' => session rest s'
      | None => None
      end
  end.

(** Text made of white space only. *)
Inductive blank : string -> Prop :=
| blank_empty : blank ""
| blank_more (space rest : string) :
    In space white_space -> blank rest -> blank (space ++ rest).

(** A reading for noon: its [dt_txt] includes '12:00:00'. *)
Definition noon (item : forecast_item) : bool :=
  match dt_txt item with
  | defined text => includes text "12:00:00"
  | undefined => false
  end.

(** State [s] with the spinner off and the error [text], the rest as it
    is. *)
Definition with_error (s : App.state) (text : string) : App.state :=
  App.mkState (App.city s) (App.weather s) (App.forecast s)
    (App.oneCallData s) false (Some text) (App.weatherType s)
    (App.isCelsius s) (App.hasLoadedWeather s).

(** State [s] with the extended conditions [data], the rest as it is. *)
Definition with_oneCallData (s : App.state) (data : option onecall_json)
  : App.state :=
  App.mkState (App.city s) (App.weather s) (App.forecast s) data
    (App.loading s) (App.error s) (App.weatherType s) (App.isCelsius s)
    (App.hasLoadedWeather s).

(** The weather type is the classification of the snapshot shown. *)
Definition classified (s : App.state) : Prop :=
  match App.weather s with
  | Some data => getWeatherType (Some data) = Normal (App.weatherType s)
  | None => True
  end.

(** The same while a handler runs: a new snapshot waits for the effect
    of the next render. *)
Definition classified_or_pending (c : App.component) : Prop :=
  App.weather_changed c = true \/ classified (App.current c).

(** A snapshot has been loaded. *)
Definition loaded (c : App.component) : Prop :=
  App.hasLoadedWeather (App.current c) = true.

(** Before the first snapshot is loaded there is none on display, and the
    weather type is the initial one. *)
Definition nothing_before_load (c : App.component) : Prop :=
  App.hasLoadedWeather (App.current c) = false ->
  App.weather (App.current c) = None
  /\ App.weatherType (App.current c) = "default".

(** The number of presses of the unit button among the events. *)
Fixpoint toggles (events : list event) : nat :=
  match events with
  | [] => 0
  | Toggled :: rest => S (toggles rest)
  | _ :: rest => toggles rest
  end.

(** The updates that leave the snapshot and its classification alone,
    and do not take back that a snapshot has been loaded. *)
Definition keeps_snapshot (f : App.state -> App.state) : Prop :=
  forall s,
    App.weather (f s) = App.weather s
    /\ App.weatherType (f s) = App.weatherType s
    /\ (App.hasLoadedWeather s = true -> App.hasLoadedWeather (f s) = true).

(** An action keeps [I], however it ends short of a teardown. *)
Definition preserves (I : App.component -> Prop) {A : Type}
    (m : App.action A) : Prop :=
  forall c,
    I c ->
    match m c with
    | App.Done _ c' => I c'
    | App.Raised _ c' => I c'
    | App.Crashed _ => True
    end.

(** An action leaves [loading] false, however it ends short of a
    teardown. *)
Definition ends_idle {A : Type} (m : App.action A) : Prop :=
  forall c,
    match m c with
    | App.Done _ c' => App.loading (App.current c') = false
    | App.Raised _ c' => App.loading (App.current c') = false
    | App.Crashed _ => True
    end.

(** The same for the runs that end normally. *)
Definition ends_idle_when_done {A : Type} (m : App.action A) : Prop :=
  forall c,
    match m c with
    | App.Done _ c' => App.loading (App.current c') = false
    | _ => True
    end.

End Session.

(** ** Checks by evaluation *)

(** What formatVisibility computes from a count of meters of 1000 or
    more: the quotient is a whole number exactly when the count is a
    multiple of 1000, and then it is the count of kilometers; otherwise
    the tenths that [toFixed(1)] shows are within 50 meters of the
    count. *)
Definition visibility_check (m : Z) : bool :=
  match Binary64.exact
          (PrimFloat.div (Format.number_of_integer m) 1000%float) with
  | Some km =>
      if m mod 1000 =? 0
      then Format.is_whole km && (Qfloor km =? m / 1000)
      else negb (Format.is_whole km)
           && (Z.abs (100 * Qfloor (km * (10 # 1) + (1 # 2)) - m) <=? 50)
           && (0 <=? Qfloor (km * (10 # 1) + (1 # 2)))
  | None => false
  end.

(** What [convertTemp] computes in Fahrenheit from [k] hundredths of a
    degree: the floor of (18 k + 32500) / 1000, which is the exact
    k/100 * 9/5 + 32 + 1/2 rounded down. *)
Definition fahrenheit_check (k : Z) : bool :=
  match Binary64.convertTemp false (Binary64.hundredths k) with
  | Some n => n =? (18 * k + 32500) / 1000
  | None => false
  end.

(** What [convertTemp] computes from a whole number [n] of degrees: [n]
    in Celsius, the floor of (18 n + 325) / 10 in Fahrenheit. *)
Definition whole_degrees_check (n : Z) : bool :=
  match Binary64.convertTemp true (Binary64.integer n),
        Binary64.convertTemp false (Binary64.integer n) with
  | Some celsius, Some fahrenheit =>
      (celsius =? n) && (fahrenheit =? (18 * n + 325) / 10)
  | _, _ => false
  end.


(** ** Observations *)

(** The value a call returned, if it returned. *)
Definition returned {A : Type} (c : completion A) : option A :=
  match c with
  | Normal a => Some a
  | Throw _ => None
  end.

(** ** Automation *)

(** Case analysis on the integer comparisons of a goal, one at a time,
    closing the impossible branches as they come. *)
Ltac compare_codes :=
  repeat match goal with
    | |- context [(?a <=? ?b)%Z] =>
        destruct (Z.leb_spec a b); simpl; try lia
    | |- context [(?a <? ?b)%Z] =>
        destruct (Z.ltb_spec a b); simpl; try lia
    | |- context [(?a =? ?b)%Z] =>
        destruct (Z.eqb_spec a b); simpl; try lia
    end.

(** Frame conditions are proved by proof search over this database. *)
Create HintDb frames discriminated.

(** The invariants of a session are proved by proof search over this
    database. *)
Create HintDb session discriminated.

(** * Properties *)

(** ** getWeatherType *)

Lemma getWeatherType_null : getWeatherType None = Normal "default".
Proof. reflexivity. Qed.

(** With a first entry that has an icon string, the classifier is the
    chain of tests on the code alone. *)
Lemma getWeatherType_entry (data : weather_json) (code : optional Z)
    (iconCode : string) (others : list condition) :
  weather data = defined (mkCondition code (defined iconCode) :: others) ->
  getWeatherType (Some data) =
    let isNight := includes iconCode "n" in
    if ge code 200 && lt code 300 then Normal "thunderstorm"
    else if ge code 300 && lt code 600 then Normal "rain"
    else if ge code 600 && lt code 700 then Normal "snow"
    else if ge code 801 && le code 804
         then Normal (if isNight then "night" else "cloudy")
    else if strict_eq code 800
         then Normal (if isNight then "night" else "sunny")
    else if ge code 700 && lt code 800 then Normal "cloudy"
    else Normal (if isNight then "night" else "default").
Proof.
  intros Hw. unfold getWeatherType. rewrite Hw. reflexivity.
Qed.

(** The specification's rule table, case by case. *)
Lemma classify_cases (code : Z) (night : bool) :
  (200 <= code < 300 -> Spec.classify code night = Some "thunderstorm")
  /\ (300 <= code < 600 -> Spec.classify code night = Some "rain")
  /\ (600 <= code < 700 -> Spec.classify code night = Some "snow")
  /\ (801 <= code <= 804 ->
      Spec.classify code night = Some (if night then "night" else "cloudy"))
  /\ (code = 800 ->
      Spec.classify code night = Some (if night then "night" else "sunny"))
  /\ (700 <= code < 800 -> Spec.classify code night = Some "cloudy")
  /\ (code < 200 \/ 804 < code ->
      Spec.classify code night = Some (if night then "night" else "default")).
Proof.
  unfold Spec.classify, Spec.rules, Spec.first_match, Spec.half_open; simpl.
  repeat split; intros H; compare_codes; destruct night; reflexivity.
Qed.

(** [prefix "n"] tests the first character. *)
Lemma prefix_n (x : ascii) (s : string) :
  prefix "n" (String x s) = Ascii.eqb x "n".
Proof.
  change (prefix "n" (String x s))
    with (if ascii_dec "n" x then prefix "" s else false).
  destruct (ascii_dec "n" x) as [<- | Hx].
  - rewrite Ascii.eqb_refl. destruct s; reflexivity.
  - symmetry. apply Ascii.eqb_neq. congruence.
Qed.

Lemma digit_is_not_n (x : ascii) :
  Spec.is_digit x = true -> Ascii.eqb x "n" = false.
Proof.
  intros Hx. destruct (Ascii.eqb_spec x "n") as [-> | _];
    [discriminate Hx | reflexivity].
Qed.

(** On the provider's icon codes (two digits, then [d] or [n]) the test
    [iconCode.includes('n')] reads the last character. *)
Lemma includes_n_provider_icon (iconCode : string) :
  Spec.provider_icon iconCode = true ->
  includes iconCode "n"
  = match Spec.last_char iconCode with
    | Some c => Ascii.eqb c "n"
    | None => false
    end.
Proof.
  destruct iconCode as [| a [| b [| c [| d rest]]]]; try discriminate.
  unfold Spec.provider_icon. intros H.
  apply andb_prop in H as [H Hc]. apply andb_prop in H as [Ha Hb].
  cbn [includes Spec.last_char].
  rewrite !prefix_n, (digit_is_not_n a Ha), (digit_is_not_n b Hb).
  destruct (Ascii.eqb c "n"); reflexivity.
Qed.

(** Outside of that format the two readings differ. *)
Example includes_n_is_not_last_char :
  includes "n1d" "n" = true /\ Spec.last_char "n1d" = Some "d"%char.
Proof. split; reflexivity. Qed.

(** C1, as the specification states it, fails: the icon indicates
    nighttime by its last character, and the code tests whether the icon
    code contains the letter n anywhere.  On the icon code n1d, whose
    last character says day, code 800 is classified as night where the
    rules give sunny, and code 802 as night where they give cloudy. *)
Lemma getWeatherType_night_test_differs :
  Spec.last_char "n1d" = Some "d"%char
  /\ Spec.nighttime "n1d" = false
  /\ getWeatherType (reading 800 "n1d") = Normal "night"
  /\ Spec.classify 800 (Spec.nighttime "n1d") = Some "sunny"
  /\ getWeatherType (reading 802 "n1d") = Normal "night"
  /\ Spec.classify 802 (Spec.nighttime "n1d") = Some "cloudy".
Proof. repeat split; reflexivity. Qed.

(** C1, amended. For every snapshot whose first weather entry has an
    integer condition code and an icon code of the provider's form (two
    digits, then d or n), getWeatherType returns the type that the seven
    rules give, taken in their order of precedence with the first match
    winning: thunderstorm on [200,300), rain on [300,600), snow on
    [600,700), night or cloudy on 801..804, night or sunny on 800,
    cloudy on [700,800) whatever the icon, and night or default on every
    other code; the night variants are taken when the last character of
    the icon code is n. *)
Theorem getWeatherType_precedence (data : weather_json) (code : Z)
    (iconCode : string) (others : list condition) :
  weather data
    = defined (mkCondition (defined code) (defined iconCode) :: others) ->
  Spec.provider_icon iconCode = true ->
  returned (getWeatherType (Some data))
    = Spec.classify code (Spec.nighttime iconCode)
  /\ (200 <= code < 300 ->
      getWeatherType (Some data) = Normal "thunderstorm")
  /\ (300 <= code < 600 -> getWeatherType (Some data) = Normal "rain")
  /\ (600 <= code < 700 -> getWeatherType (Some data) = Normal "snow")
  /\ (801 <= code <= 804 ->
      getWeatherType (Some data)
        = Normal (if Spec.nighttime iconCode then "night" else "cloudy"))
  /\ (code = 800 ->
      getWeatherType (Some data)
        = Normal (if Spec.nighttime iconCode then "night" else "sunny"))
  /\ (700 <= code < 800 -> getWeatherType (Some data) = Normal "cloudy")
  /\ (code < 200 \/ 804 < code ->
      getWeatherType (Some data)
        = Normal (if Spec.nighttime iconCode then "night" else "default")).
Proof.
  intros Hw Hicon.
  rewrite (getWeatherType_entry data (defined code) iconCode others Hw).
  rewrite (includes_n_provider_icon iconCode Hicon).
  fold (Spec.nighttime iconCode).
  unfold Spec.classify, Spec.rules, Spec.first_match, Spec.half_open.
  cbn [ge lt le strict_eq Spec.applies Spec.by_night Spec.by_day].
  repeat split; try intros H; compare_codes;
    destruct (Spec.nighttime iconCode); reflexivity.
Qed.

Lemma getWeatherType_precedence_witness :
  getWeatherType (reading 802 "04n") = Normal "night"
  /\ getWeatherType (reading 800 "01d") = Normal "sunny".
Proof.
  split.
  - destruct (getWeatherType_precedence
                (mkWeather
                   (defined [mkCondition (defined 802) (defined "04n")])
                   undefined undefined)
                802 "04n" [] eq_refl eq_refl)
      as (_ & _ & _ & _ & Hclouds & _).
    apply Hclouds. split; discriminate.
  - destruct (getWeatherType_precedence
                (mkWeather
                   (defined [mkCondition (defined 800) (defined "01d")])
                   undefined undefined)
                800 "01d" [] eq_refl eq_refl)
      as (_ & _ & _ & _ & _ & Hclear & _).
    apply Hclear. reflexivity.
Defined.

(** Every result of the chain of tests is one of the seven types. *)
Lemma getWeatherType_entry_tag (data : weather_json) (code : optional Z)
    (iconCode : string) (others : list condition) :
  weather data = defined (mkCondition code (defined iconCode) :: others) ->
  exists type,
    getWeatherType (Some data) = Normal type /\ In type Spec.weather_types.
Proof.
  intros Hw. rewrite (getWeatherType_entry data code iconCode others Hw).
  unfold Spec.weather_types. cbv zeta.
  repeat match goal with
         | |- context [if ?b then _ else _] => destruct b
         end;
    eexists; (split; [reflexivity | simpl; tauto]).
Qed.

(** A snapshot object without the weather entry or without its icon
    makes the classifier throw. *)
Lemma getWeatherType_needs_icon (data : weather_json) :
  weather data = undefined
  \/ weather data = defined []
  \/ (exists entry others,
        weather data = defined (entry :: others) /\ icon entry = undefined) ->
  exists what, getWeatherType (Some data) = Throw (TypeError what).
Proof.
  intros [Hw | [Hw | (entry & others & Hw & Hi)]];
    unfold getWeatherType; rewrite Hw; simpl.
  - eexists; reflexivity.
  - eexists; reflexivity.
  - rewrite Hi. simpl. eexists; reflexivity.
Qed.

(** C2, as the specification states it, fails: a snapshot object that
    lacks the weather entries does not classify as default, the
    classifier throws; so it does on an entry that lacks the icon; and an
    entry that lacks the condition code, with a night icon, classifies as
    night. *)
Lemma getWeatherType_malformed_not_default :
  getWeatherType (Some (mkWeather undefined undefined undefined))
    = Throw (TypeError "Cannot read properties of undefined (reading '0')")
  /\ getWeatherType (Some (mkWeather undefined undefined undefined))
       <> Normal "default"
  /\ getWeatherType
       (Some (mkWeather (defined [mkCondition (defined 800) undefined])
                        undefined undefined))
       <> Normal "default"
  /\ getWeatherType
       (Some (mkWeather (defined [mkCondition undefined (defined "01n")])
                        undefined undefined))
       = Normal "night".
Proof. repeat split; try reflexivity; discriminate. Qed.

(** C2, amended. getWeatherType returns default for a missing snapshot
    (null), with no field to inspect; and for every snapshot whose first
    weather entry has a string icon it raises no error and returns one of
    the seven weather types, for every integer condition code and for an
    absent one. *)
Theorem getWeatherType_total :
  getWeatherType None = Normal "default"
  /\ forall (data : weather_json) (code : optional Z) (iconCode : string)
            (others : list condition),
       weather data = defined (mkCondition code (defined iconCode) :: others) ->
       exists type,
         getWeatherType (Some data) = Normal type
         /\ In type Spec.weather_types.
Proof.
  split; [reflexivity |].
  intros data code iconCode others Hw.
  exact (getWeatherType_entry_tag data code iconCode others Hw).
Qed.

Lemma getWeatherType_total_witness :
  exists type,
    getWeatherType (reading 999 "50n") = Normal type
    /\ In type Spec.weather_types.
Proof.
  exact (proj2 getWeatherType_total
           (mkWeather (defined [mkCondition (defined 999) (defined "50n")])
                      undefined undefined)
           (defined 999) "50n" [] eq_refl).
Defined.

(** ** The App component: frame lemmas *)

Section Frames.

Context {B : Type} (f : App.state -> B).

Lemma unchanged_ret {A : Type} (a : A) : App.unchanged f (App.ret a).
Proof. intros c. reflexivity. Qed.

Lemma unchanged_throw {A : Type} (e : exn) :
  App.unchanged f (@App.throw A e).
Proof. intros c. reflexivity. Qed.

Lemma unchanged_eval {A : Type} (v : completion A) :
  App.unchanged f (App.eval v).
Proof. destruct v; intros c; reflexivity. Qed.

Lemma unchanged_and_then {A A' : Type} (m : App.action A)
    (k : A -> App.action A') :
  App.unchanged f m -> (forall a, App.unchanged f (k a)) ->
  App.unchanged f (App.and_then m k).
Proof.
  intros Hm Hk c. unfold App.and_then.
  specialize (Hm c). destruct (m c) as [a c' | e c' | e]; try exact Hm.
  specialize (Hk a c'). destruct (k a c') as [a' c'' | e c'' | e];
    try exact I; congruence.
Qed.

Lemma unchanged_render :
  App.ignores_weatherType f -> App.unchanged f App.render.
Proof.
  intros Hf c. unfold App.render, App.useEffect_weather.
  destruct (App.weather_changed c); [| reflexivity]. cbn.
  destruct (App.weather (App.current c)); [| reflexivity].
  destruct (getWeatherType _); [| exact I].
  cbn. apply Hf.
Qed.

Lemma unchanged_await {A : Type} (p : App.promise A) :
  App.ignores_weatherType f -> App.unchanged f (App.await p).
Proof.
  intros Hf. unfold App.await. apply unchanged_and_then.
  - apply unchanged_render, Hf.
  - intros _. destruct p; [apply unchanged_ret | apply unchanged_throw].
Qed.

Lemma unchanged_on_raise_and_then {A A' : Type} (m : App.action A)
    (k : A -> App.action A') :
  App.unchanged f m -> (forall a, App.unchanged_on_raise f (k a)) ->
  App.unchanged_on_raise f (App.and_then m k).
Proof.
  intros Hm Hk c. unfold App.and_then.
  specialize (Hm c). destruct (m c) as [a c' | e c' | e]; try exact Hm;
    try exact I.
  specialize (Hk a c'). destruct (k a c') as [a' c'' | e c'' | e];
    try exact I; congruence.
Qed.

End Frames.

#[local] Hint Resolve unchanged_ret unchanged_throw unchanged_eval
  unchanged_and_then unchanged_await unchanged_render
  unchanged_on_raise_and_then : frames.
#[local] Hint Extern 1 (App.ignores_weatherType _) =>
  intros ? ?; reflexivity : frames.
#[local] Hint Extern 2 (App.unchanged _ (if ?b then _ else _)) =>
  destruct b : frames.
#[local] Hint Extern 9 (App.unchanged _ _) =>
  solve [intros ?; reflexivity] : frames.
#[local] Hint Extern 9 (App.unchanged_on_raise _ _) =>
  solve [intros ?; exact I] : frames.

(** ** The App component: the fetch functions *)

(** Both fetch functions open with [setLoading(true); setError(null)],
    and nothing after that in their [try] block sets an error. *)
Lemma error_after_reset {A : Type} (rest : App.action A) (c : App.component) :
  App.unchanged App.error rest ->
  match App.and_then (App.setLoading true)
          (fun _ => App.and_then (App.setError None) (fun _ => rest)) c with
  | App.Done _ c' => App.error (App.current c') = None
  | App.Raised _ c' => App.error (App.current c') = None
  | App.Crashed _ => True
  end.
Proof.
  intros Hrest. unfold App.and_then, App.setLoading, App.setError, App.set.
  match goal with
  | |- match rest ?c1 with _ => _ end =>
      specialize (Hrest c1); destruct (rest c1)
  end; exact Hrest.
Qed.

(** A run of such a function that ends with an error has left its [try]
    block by an exception and gone through its [catch] block, which ended
    normally; [setLoading(false)] and the last render follow. *)
Lemma failed_run_entered_catch (rest : App.action unit)
    (handler : exn -> App.action unit) (s s' : App.state) :
  App.unchanged App.error rest ->
  App.settled
    (App.run
       (App.try_catch_finally
          (App.and_then (App.setLoading true)
             (fun _ => App.and_then (App.setError None) (fun _ => rest)))
          handler (App.setLoading false)) s) = Some s' ->
  App.failed s' = true ->
  exists e c' c'',
    App.and_then (App.setLoading true)
      (fun _ => App.and_then (App.setError None) (fun _ => rest))
      (App.mkComponent s false) = App.Raised e c'
    /\ handler e c' = App.Done tt c''
    /\ App.settled
         (App.and_then (App.setLoading false) (fun _ => App.render) c'')
       = Some s'.
Proof.
  intros Hrest.
  pose proof (error_after_reset rest (App.mkComponent s false) Hrest) as Hbody.
  unfold App.run. unfold App.and_then at 1. unfold App.try_catch_finally.
  destruct (App.and_then (App.setLoading true) _ _) as [[] c' | e c' | e].
  - cbn. intros Hs Hf. exfalso.
    match type of Hs with
    | App.settled (App.render ?c) = _ =>
        pose proof (unchanged_render App.error (fun _ _ => eq_refl) c) as Hr;
        destruct (App.render c) as [? ? | ? ? | ?]; try discriminate
    end.
    injection Hs as <-. unfold App.failed in Hf. rewrite Hr in Hf.
    cbn in Hf. rewrite Hbody in Hf. discriminate.
  - destruct (handler e c') as [[] c'' | e' c'' | e'] eqn:Hh.
    + intros Hs _. exists e, c', c''.
      split; [reflexivity | split; [exact Hh | exact Hs]].
    + cbn. discriminate.
    + discriminate.
  - discriminate.
Qed.

(** The city path: every run that went through the [catch] block ends
    with the snapshot, the forecast and the extended conditions
    cleared. *)
Lemma fetchWeatherByCity_failure_clears (cityName : string)
    (wf : App.promise (App.response snapshot))
    (ff : App.promise (App.response (option forecast_json)))
    (s s' : App.state) :
  App.settled (App.run (App.fetchWeatherByCity cityName wf ff) s) = Some s' ->
  App.failed s' = true ->
  App.weather s' = None /\ App.forecast s' = [] /\ App.oneCallData s' = None.
Proof.
  intros Hs Hf. unfold App.fetchWeatherByCity in Hs.
  apply failed_run_entered_catch in Hs;
    [| eauto 40 with frames nocore | exact Hf].
  destruct Hs as (e & c' & c'' & _ & Hh & Hs).
  cbn in Hh. injection Hh as <-. cbn in Hs. unfold App.render in Hs.
  match type of Hs with
  | context [if ?flag then _ else _] => destruct flag
  end; cbn in Hs; injection Hs as <-; cbn; auto.
Qed.

(** The coordinates path: every run that went through the [catch] block
    ends with the forecast it started from. *)
Lemma fetchWeatherByCoords_failure_keeps_forecast (latitude longitude : Q)
    (wf : App.promise (App.response snapshot))
    (ff : App.promise (App.response (option forecast_json)))
    (s s' : App.state) :
  App.settled
    (App.run (App.fetchWeatherByCoords latitude longitude wf ff) s) = Some s' ->
  App.failed s' = true ->
  App.forecast s' = App.forecast s
  /\ App.error s' = Some "Failed to fetch weather data"
  /\ App.oneCallData s' = None.
Proof.
  intros Hs Hf. unfold App.fetchWeatherByCoords in Hs.
  apply failed_run_entered_catch in Hs;
    [| eauto 40 with frames nocore | exact Hf].
  destruct Hs as (e & c' & c'' & Hb & Hh & Hs).
  match type of Hb with
  | ?body _ = _ =>
      assert (Hraise : App.unchanged_on_raise App.forecast body)
        by eauto 40 with frames nocore
  end.
  specialize (Hraise (App.mkComponent s false)). rewrite Hb in Hraise.
  cbn in Hraise, Hh. injection Hh as <-. cbn in Hs.
  match type of Hs with
  | App.settled (App.render ?c) = _ =>
      pose proof (unchanged_render App.forecast (fun _ _ => eq_refl) c) as Hfo;
      pose proof (unchanged_render App.error (fun _ _ => eq_refl) c) as He;
      pose proof (unchanged_render App.oneCallData (fun _ _ => eq_refl) c)
        as Ho;
      destruct (App.render c) as [? ? | ? ? | ?]; try discriminate
  end.
  injection Hs as <-. cbn in Hfo, He, Ho. rewrite Hfo, He, Ho, Hraise. auto.
Qed.

(** ** Math.round *)

(** [Math_round x] is an integer nearest to [x]; of two it is the upper
    one. *)
Lemma Math_round_nearest (x : Q) :
  (x - (1 # 2) < inject_Z (Math_round x))%Q
  /\ (inject_Z (Math_round x) <= x + (1 # 2))%Q.
Proof.
  unfold Math_round.
  pose proof (Qfloor_le (x + (1 # 2))) as Hle.
  pose proof (Qlt_floor (x + (1 # 2))) as Hlt.
  rewrite inject_Z_plus in Hlt.
  change (inject_Z 1) with 1%Q in Hlt.
  split; lra.
Qed.

Lemma Math_round_is_nearest (x : Q) : Spec.nearest x (Math_round x).
Proof.
  destruct (Math_round_nearest x) as [Hlo Hhi].
  split; [apply Qlt_le_weak, Hlo | exact Hhi].
Qed.

Lemma Math_round_between (x : Q) (lower upper : Z) :
  (inject_Z lower <= x)%Q -> (x <= inject_Z upper)%Q ->
  lower <= Math_round x <= upper.
Proof.
  intros Hlo Hhi. destruct (Math_round_nearest x) as [H1 H2].
  split.
  - apply Z.lt_succ_r. rewrite Zlt_Qlt.
    unfold Z.succ. rewrite inject_Z_plus. change (inject_Z 1) with 1%Q. lra.
  - apply Z.lt_succ_r. rewrite Zlt_Qlt.
    unfold Z.succ. rewrite inject_Z_plus. change (inject_Z 1) with 1%Q. lra.
Qed.

(** ** getWindDirection *)

Lemma wind_round_bounds (d : Q) :
  (0 <= d)%Q -> (d <= 360 # 1)%Q -> 0 <= Math_round (d / (45 # 1)) <= 8.
Proof.
  intros Hlo Hhi. apply Math_round_between.
  - change (inject_Z 0) with 0%Q. apply Qle_shift_div_l; [reflexivity | lra].
  - change (inject_Z 8) with (8 # 1)%Q.
    apply Qle_shift_div_r; [reflexivity | lra].
Qed.

(** On a rounded quotient that is not negative, the remainder [%] is the
    mathematical modulo. *)
Lemma wind_index_mod (d : Q) :
  (0 <= d)%Q -> (d <= 360 # 1)%Q ->
  wind_index d = Math_round (d / (45 # 1)) mod 8
  /\ 0 <= wind_index d <= 7.
Proof.
  intros Hlo Hhi. pose proof (wind_round_bounds d Hlo Hhi) as Hn.
  unfold wind_index. rewrite Z.rem_mod_nonneg by lia.
  split; [reflexivity |].
  pose proof (Z.mod_pos_bound (Math_round (d / (45 # 1))) 8). lia.
Qed.

(** An index within the array reads one of the eight points. *)
Lemma directions_in_bounds (i : Z) :
  0 <= i <= 7 ->
  exists point,
    nth_error directions (Z.to_nat i) = Some point
    /\ at_index directions i = defined point
    /\ In point directions.
Proof.
  intros Hi.
  assert (Hcases : i = 0 \/ i = 1 \/ i = 2 \/ i = 3
                   \/ i = 4 \/ i = 5 \/ i = 6 \/ i = 7) by lia.
  repeat (destruct Hcases as [-> | Hcases]); try subst i;
    eexists; (split; [reflexivity | split; [reflexivity | simpl; tauto]]).
Qed.

(** An index outside of the array reads [undefined]: the bound on the
    degrees is needed. *)
Example getWindDirection_negative :
  wind_index (-45 # 1) = -1
  /\ getWindDirection (defined (-45 # 1)%Q) = undefined.
Proof. split; reflexivity. Qed.

(** C5. For every degrees value from 0 to 360, getWindDirection returns
    the compass point at the index round(degrees/45) mod 8 of the list
    N, NE, E, SE, S, SW, W, NW, where round gives the nearest integer; and
    for undefined degrees it returns the empty string, with no error. *)
Theorem getWindDirection_compass (d : Q) :
  (0 <= d)%Q -> (d <= 360 # 1)%Q ->
  Spec.nearest (d / (45 # 1)) (Math_round (d / (45 # 1)))
  /\ (exists point,
        Spec.compass_point (Math_round (d / (45 # 1))) = Some point
        /\ getWindDirection (defined d) = defined point)
  /\ getWindDirection undefined = defined "".
Proof.
  intros Hlo Hhi.
  destruct (wind_index_mod d Hlo Hhi) as [Hmod Hrange].
  destruct (directions_in_bounds (wind_index d) Hrange)
    as (point & Hnth & Hat & _).
  split; [apply Math_round_is_nearest |].
  split; [| reflexivity].
  exists point. split.
  - unfold Spec.compass_point. rewrite <- Hmod. exact Hnth.
  - exact Hat.
Qed.

Lemma getWindDirection_compass_witness :
  Spec.nearest ((100 # 1) / (45 # 1)) (Math_round ((100 # 1) / (45 # 1)))
  /\ (exists point,
        Spec.compass_point (Math_round ((100 # 1) / (45 # 1))) = Some point
        /\ getWindDirection (defined (100 # 1)%Q) = defined point)
  /\ getWindDirection undefined = defined "".
Proof.
  apply (getWindDirection_compass (100 # 1)); discriminate.
Defined.

(** C6, as the specification states it, fails: 44 degrees is nearer to
    45 than to 0, and getWindDirection maps it to NE. *)
Lemma getWindDirection_44_is_NE :
  getWindDirection (defined (44 # 1)%Q) = defined "NE"
  /\ ~ (getWindDirection (defined (0 # 1)%Q) = defined "N"
        /\ getWindDirection (defined (44 # 1)%Q) = defined "N"
        /\ getWindDirection (defined (46 # 1)%Q) = defined "NE"
        /\ getWindDirection (defined (360 # 1)%Q) = defined "N").
Proof.
  split; [reflexivity |].
  intros (_ & H44 & _). discriminate H44.
Qed.

(** C6, amended. getWindDirection maps 0 degrees to N, 44 degrees to NE,
    46 degrees to NE, and 360 degrees to N: there the rounded quotient is
    8, and the index wraps to 0 by the modulo. *)
Theorem getWindDirection_examples :
  getWindDirection (defined (0 # 1)%Q) = defined "N"
  /\ getWindDirection (defined (44 # 1)%Q) = defined "NE"
  /\ getWindDirection (defined (46 # 1)%Q) = defined "NE"
  /\ getWindDirection (defined (360 # 1)%Q) = defined "N"
  /\ Math_round ((360 # 1) / (45 # 1)) = 8
  /\ wind_index (360 # 1) = 0.
Proof. repeat split; reflexivity. Qed.

(** C10. For every degrees value from 0 to 360 the index computed by
    getWindDirection lies within 0..7, so the lookup is within the array
    and the function returns one of the eight compass strings. *)
Theorem getWindDirection_in_bounds (d : Q) :
  (0 <= d)%Q -> (d <= 360 # 1)%Q ->
  0 <= wind_index d <= 7
  /\ exists point,
       getWindDirection (defined d) = defined point /\ In point directions.
Proof.
  intros Hlo Hhi.
  destruct (wind_index_mod d Hlo Hhi) as [_ Hrange].
  split; [exact Hrange |].
  destruct (directions_in_bounds (wind_index d) Hrange)
    as (point & _ & Hat & Hin).
  exists point. split; assumption.
Qed.

Lemma getWindDirection_in_bounds_witness :
  0 <= wind_index (359 # 1) <= 7
  /\ exists point,
       getWindDirection (defined (359 # 1)%Q) = defined point
       /\ In point directions.
Proof.
  apply (getWindDirection_in_bounds (359 # 1)); discriminate.
Defined.

(** ** getUVLevel *)

(** The buckets do not overlap: a value has one label. *)
Lemma uv_bucket_functional (uvi : Q) (l1 l2 : string) :
  Spec.uv_bucket uvi l1 -> Spec.uv_bucket uvi l2 -> l1 = l2.
Proof.
  intros H1 H2. destruct H1; destruct H2; try reflexivity; exfalso; lra.
Qed.

Lemma Qle_bool_false (x y : Q) : Qle_bool x y = false -> (y < x)%Q.
Proof.
  intros H. apply Qnot_le_lt. intros Hle.
  apply Qle_bool_iff in Hle. congruence.
Qed.

(** C7. For every UV index value, getUVLevel returns the bucket of the
    thresholds, each inclusive on its upper bound: Low up to 2, Moderate
    above 2 and up to 5, High above 5 and up to 7, Very High above 7 and
    up to 10, Extreme above 10; so 2 is Low, 2.01 is Moderate and 11 is
    Extreme. *)
Theorem getUVLevel_buckets (uvi : Q) :
  Spec.uv_bucket uvi (label (getUVLevel uvi))
  /\ label (getUVLevel (2 # 1)) = "Low"
  /\ label (getUVLevel (201 # 100)) = "Moderate"
  /\ label (getUVLevel (11 # 1)) = "Extreme".
Proof.
  split; [| repeat split; reflexivity].
  unfold getUVLevel.
  destruct (Qle_bool uvi (2 # 1)) eqn:H2.
  { apply Spec.uv_low, Qle_bool_iff, H2. }
  apply Qle_bool_false in H2.
  destruct (Qle_bool uvi (5 # 1)) eqn:H5.
  { apply Spec.uv_moderate; [exact H2 | apply Qle_bool_iff, H5]. }
  apply Qle_bool_false in H5.
  destruct (Qle_bool uvi (7 # 1)) eqn:H7.
  { apply Spec.uv_high; [exact H5 | apply Qle_bool_iff, H7]. }
  apply Qle_bool_false in H7.
  destruct (Qle_bool uvi (10 # 1)) eqn:H10.
  { apply Spec.uv_very_high; [exact H7 | apply Qle_bool_iff, H10]. }
  apply Qle_bool_false in H10.
  apply Spec.uv_extreme, H10.
Qed.

(** ** Properties checked on every integer of a range *)

(** A check that holds on every integer of a range holds on each. *)
Lemma range_forallb (P : Z -> bool) (count : nat) (lower : Z) :
  forallb P (Format.range count lower) = true ->
  forall z, lower <= z < lower + Z.of_nat count -> P z = true.
Proof.
  revert lower. induction count as [| k IH]; intros lower Hall z Hz.
  - simpl in Hz. lia.
  - cbn [Format.range forallb] in Hall. apply andb_prop in Hall as [H0 Hrest].
    destruct (Z.eq_dec z lower) as [-> | Hne]; [exact H0 |].
    apply (IH (lower + 1) Hrest). lia.
Qed.

(** ** convertTemp *)

Lemma Math_round_hundredths (k : Z) :
  Math_round ((k # 100) * (9 # 5) + (32 # 1)) = (18 * k + 32500) / 1000.
Proof.
  unfold Math_round.
  assert (H : ((k # 100) * (9 # 5) + (32 # 1) + (1 # 2)
               == (18 * k + 32500) # 1000)%Q).
  { unfold Qeq, Qmult, Qplus. cbn [Qnum Qden Pos.mul]. lia. }
  rewrite (Qfloor_comp _ _ H). reflexivity.
Qed.

Lemma fahrenheit_checked :
  forallb fahrenheit_check (Format.range (Z.to_nat 20001) (-10000)) = true.
Proof. vm_cast_no_check (eq_refl true). Qed.

(** C8, as the specification states it, fails: the source rounds the
    product, the quotient and the sum to binary64 numbers before
    [Math.round].  At the number just below 2.5 the exact C * 9/5 + 32
    lies below 36.5 and rounds to 36; the source computes 36.5 and
    returns 37, which is not an integer nearest to the exact value. *)
Lemma convertTemp_fahrenheit_near_tie :
  Binary64.convertTemp false Binary64.below_2_5 = Some 37
  /\ Binary64.exact Binary64.below_2_5
     = Some (5629499534213119 # 2251799813685248)
  /\ Math_round ((5629499534213119 # 2251799813685248) * (9 # 5) + (32 # 1))
     = 36
  /\ ~ Spec.nearest
        ((5629499534213119 # 2251799813685248) * (9 # 5) + (32 # 1)) 37.
Proof.
  split; [vm_compute; reflexivity |].
  split; [vm_compute; reflexivity |].
  split; [vm_compute; reflexivity |].
  unfold Spec.nearest. intros [_ H]. revert H.
  unfold Qle, Qmult, Qplus, inject_Z. cbn [Qnum Qden Pos.mul]. lia.
Qed.

(** C8, amended. For every Celsius temperature that is a whole number of
    hundredths of a degree from -100 to 100, which is how the provider
    sends it, the display conversion in Fahrenheit mode returns
    round(C * 9/5 + 32), the integer nearest to the exact C * 9/5 + 32
    with a tie going up; it maps 0 to 32 and 100 to 212. *)
Theorem convertTemp_fahrenheit (k : Z) :
  -10000 <= k <= 10000 ->
  (exists n,
      Binary64.convertTemp false (Binary64.hundredths k) = Some n
      /\ n = Math_round ((k # 100) * (9 # 5) + (32 # 1))
      /\ Spec.nearest ((k # 100) * (9 # 5) + (32 # 1)) n)
  /\ Binary64.convertTemp false 0%float = Some 32
  /\ Binary64.convertTemp false 100%float = Some 212.
Proof.
  intros Hk. split; [| split; vm_compute; reflexivity].
  pose proof (range_forallb fahrenheit_check _ _ fahrenheit_checked k
                ltac:(lia)) as Hcheck.
  unfold fahrenheit_check in Hcheck.
  destruct (Binary64.convertTemp false (Binary64.hundredths k)) as [n |];
    [| discriminate].
  apply Z.eqb_eq in Hcheck. exists n. split; [reflexivity |].
  rewrite <- Math_round_hundredths in Hcheck.
  split; [exact Hcheck |]. rewrite Hcheck. apply Math_round_is_nearest.
Qed.

Lemma convertTemp_fahrenheit_witness :
  exists n,
    Binary64.convertTemp false (Binary64.hundredths 2150) = Some n
    /\ n = Math_round ((2150 # 100) * (9 # 5) + (32 # 1))
    /\ Spec.nearest ((2150 # 100) * (9 # 5) + (32 # 1)) n.
Proof.
  apply (convertTemp_fahrenheit 2150). split; discriminate.
Defined.

(** In Celsius mode the temperature is only rounded. *)
Lemma convertTemp_celsius (tempCelsius : Q) :
  convertTemp true tempCelsius = Math_round tempCelsius.
Proof. reflexivity. Qed.

(** ** calculateDewPoint *)















(** The source does not return an integer for every temperature: at
    -237.7 the divisor is zero and the result is NaN. *)
Example calculateDewPoint_NaN :
  forall approximation,
    Binary64.calculateDewPoint approximation
      (PrimFloat.opp Binary64.literal_237_7) 100%float = None.
Proof. intros approximation. vm_compute. reflexivity. Qed.

(** ** The App component: scenarios *)

(** A search that succeeds: the snapshot and the noon readings are
    stored, and the effect classifies the snapshot. *)
Example search_oslo :
  App.settled
    (App.run (App.fetchWeatherByCity "Oslo"
                (Scenario.answered (Some Scenario.oslo))
                (Scenario.answered (Some Scenario.oslo_forecast)))
             App.initial)
  = Some (App.mkState (defined "") (Some Scenario.oslo) [Scenario.oslo_noon]
            None false None "rain" false true).
Proof. reflexivity. Qed.

(** The One Call data arrive on their own. *)
Example onecall_oslo :
  App.settled
    (App.run (App.fetchOneCallData
                (Scenario.answered (Some (mkOneCall (defined (3 # 1)))))
                Scenario.unreachable)
             (App.mkState (defined "Oslo") (Some Scenario.oslo)
                [Scenario.oslo_noon] None false None "rain" false true))
  = Some Scenario.showing_oslo.
Proof. reflexivity. Qed.

(** C3, on the coordinates path. While the first location is shown, a
    fetch by coordinates for a second location fails: either at once, or
    after the snapshot of the second location has been stored.  Both
    runs record the error and clear the extended conditions, and both
    keep the forecast of the first location; the second one shows it
    next to the snapshot of the second location. *)
Theorem fetchWeatherByCoords_keeps_stale_forecast :
  App.settled
    (App.run (App.fetchWeatherByCoords (-1205 # 100) (-7704 # 100)
                Scenario.unreachable Scenario.unreachable)
             Scenario.showing_oslo)
  = Some (App.mkState (defined "Oslo") (Some Scenario.oslo)
            [Scenario.oslo_noon] None false
            (Some "Failed to fetch weather data") "rain" false true)
  /\ App.settled
       (App.run (App.fetchWeatherByCoords (-1205 # 100) (-7704 # 100)
                   (Scenario.answered (Some Scenario.lima))
                   Scenario.unreachable)
                Scenario.showing_oslo)
     = Some (App.mkState (defined "Lima") (Some Scenario.lima)
               [Scenario.oslo_noon] None false
               (Some "Failed to fetch weather data") "night" false true).
Proof. split; reflexivity. Qed.

(** The coordinates path does not test [response.ok]: an error document
    of the provider is stored as the snapshot, and the effect that
    classifies it tears the component down. *)
Example fetchWeatherByCoords_error_document :
  App.run (App.fetchWeatherByCoords (-1205 # 100) (-7704 # 100)
             (App.Fulfilled
                (App.mkResponse false
                   (App.Fulfilled (Some Scenario.error_document))))
             Scenario.unreachable)
          Scenario.showing_oslo
  = App.Crashed
      (TypeError "Cannot read properties of undefined (reading '0')").
Proof. reflexivity. Qed.

(** A failed city lookup goes to the [catch] block before any snapshot
    is stored: the component survives, the snapshot is cleared and the
    weather type is the one it had. *)
Lemma failed_lookup_keeps_type (cityName : string)
    (wf : App.promise (App.response snapshot))
    (ff : App.promise (App.response (option forecast_json)))
    (s : App.state) :
  App.lookup_failed wf = true ->
  exists s',
    App.settled (App.run (App.fetchWeatherByCity cityName wf ff) s) = Some s'
    /\ App.weatherType s' = App.weatherType s
    /\ App.weather s' = None
    /\ App.failed s' = true.
Proof.
  intros Hfailed.
  destruct wf as [[ok body] | e]; cbn in Hfailed.
  - destruct ok; [discriminate |].
    unfold App.run, App.fetchWeatherByCity, App.try_catch_finally. cbn.
    unfold App.render. cbn.
    destruct (App.weather s); cbn; eexists; repeat split; reflexivity.
  - unfold App.run, App.fetchWeatherByCity, App.try_catch_finally. cbn.
    unfold App.render. cbn.
    destruct (App.weather s); cbn; eexists; repeat split; reflexivity.
Qed.

(** After any number of failed lookups the weather type is the one the
    session started with. *)
Lemma failed_lookups_keep_type (l : list App.search) (s : App.state) :
  Forall (fun q => App.lookup_failed (App.search_weather q) = true) l ->
  exists s',
    App.searches l s = Some s' /\ App.weatherType s' = App.weatherType s.
Proof.
  intros Hall. revert s.
  induction Hall as [| q rest Hq _ IH]; intros s.
  - exists s. split; reflexivity.
  - destruct (failed_lookup_keeps_type (App.search_city q)
                (App.search_weather q) (App.search_forecast q) s Hq)
      as (s1 & Hrun & Htype & _).
    destruct (IH s1) as (s' & Hrest & Htype').
    exists s'. split.
    + cbn [App.searches]. rewrite Hrun. exact Hrest.
    + congruence.
Qed.

(** C4. A snapshot with condition code 501 and icon 10d classifies as
    rain, and rain resolves to the rain entry of the theme table, also
    through a search that loads such a snapshot.  A failed city lookup
    leaves the weather type at the value it had and does not tear the
    component down: the missing snapshot is never classified; and when
    every lookup since the start has failed, that value is default. *)
Theorem rain_theme_and_failed_lookup :
  getWeatherType (reading 501 "10d") = Normal "rain"
  /\ theme_of "rain" = defined Spec.rain_entry
  /\ option_map (fun s' => theme_of (App.weatherType s'))
       (App.settled
          (App.run (App.fetchWeatherByCity "Oslo"
                      (Scenario.answered (Some Scenario.oslo))
                      (Scenario.answered (Some Scenario.oslo_forecast)))
                   App.initial))
     = Some (defined Spec.rain_entry)
  /\ (forall (cityName : string)
             (wf : App.promise (App.response snapshot))
             (ff : App.promise (App.response (option forecast_json)))
             (s : App.state),
        App.lookup_failed wf = true ->
        exists s',
          App.settled (App.run (App.fetchWeatherByCity cityName wf ff) s)
            = Some s'
          /\ App.weatherType s' = App.weatherType s)
  /\ (forall l : list App.search,
        Forall (fun q => App.lookup_failed (App.search_weather q) = true) l ->
        exists s',
          App.searches l App.initial = Some s'
          /\ App.weatherType s' = "default").
Proof.
  split; [reflexivity |]. split; [reflexivity |]. split; [reflexivity |].
  split.
  - intros cityName wf ff s Hfailed.
    destruct (failed_lookup_keeps_type cityName wf ff s Hfailed)
      as (s' & Hrun & Htype & _).
    exists s'. split; assumption.
  - intros l Hall.
    destruct (failed_lookups_keep_type l App.initial Hall)
      as (s' & Hrun & Htype).
    exists s'. split; [exact Hrun | exact Htype].
Qed.

Lemma rain_theme_and_failed_lookup_witness :
  exists s',
    App.settled
      (App.run (App.fetchWeatherByCity "Atlantis" Scenario.not_found
                  Scenario.unreachable)
               Scenario.showing_oslo)
      = Some s'
    /\ App.weatherType s' = "rain".
Proof.
  exact (proj1 (proj2 (proj2 (proj2 rain_theme_and_failed_lookup)))
           "Atlantis" Scenario.not_found Scenario.unreachable
           Scenario.showing_oslo eq_refl).
Defined.

(** The extended conditions are optional: whatever the two One Call
    requests settle to, [fetchOneCallData] ends normally and touches the
    [oneCallData] cell only. *)
Lemma fetchOneCallData_settles
    (v30 v25 : App.promise (App.response (option onecall_json)))
    (s : App.state) :
  exists s',
    App.settled (App.run (App.fetchOneCallData v30 v25) s) = Some s'
    /\ App.weather s' = App.weather s
    /\ App.forecast s' = App.forecast s
    /\ App.error s' = App.error s
    /\ App.weatherType s' = App.weatherType s.
Proof.
  unfold App.run, App.fetchOneCallData, App.try_catch, App.try_catch_finally.
  destruct v30 as [[ok30 [data30 | e30]] | e30];
    try destruct ok30;
    try destruct v25 as [[ok25 [data25 | e25]] | e25];
    try destruct ok25;
    cbn; eexists; repeat split; reflexivity.
Qed.

(** The unit toggle changes the [isCelsius] cell only: temperatures are
    stored in Celsius and converted when they are displayed. *)
Lemma toggleTemperatureUnit_flips (s : App.state) :
  App.settled (App.run App.toggleTemperatureUnit s)
  = Some (App.mkState (App.city s) (App.weather s) (App.forecast s)
            (App.oneCallData s) (App.loading s) (App.error s)
            (App.weatherType s) (negb (App.isCelsius s))
            (App.hasLoadedWeather s)).
Proof. reflexivity. Qed.

(** ** The values of the specification, on binary64 numbers *)

Example binary64_wind :
  Binary64.getWindDirection (defined 0%float) = defined "N"
  /\ Binary64.getWindDirection (defined 44%float) = defined "NE"
  /\ Binary64.getWindDirection (defined 46%float) = defined "NE"
  /\ Binary64.getWindDirection (defined 360%float) = defined "N".
Proof. repeat split; vm_compute; reflexivity. Qed.

Example binary64_uv :
  label (Binary64.getUVLevel 2%float) = "Low"
  /\ label (Binary64.getUVLevel Binary64.literal_2_01) = "Moderate"
  /\ label (Binary64.getUVLevel 11%float) = "Extreme".
Proof. repeat split; vm_compute; reflexivity. Qed.

Example binary64_temperature :
  Binary64.convertTemp false 0%float = Some 32
  /\ Binary64.convertTemp false 100%float = Some 212.
Proof. repeat split; vm_compute; reflexivity. Qed.

(** The exact model leaves out the rounding of the product, of the
    quotient and of the sum: within that rounding of a tie the two can
    differ by one. *)
Example binary64_near_tie :
  Binary64.convertTemp false Binary64.below_2_5 = Some 37
  /\ option_map (convertTemp false) (Binary64.exact Binary64.below_2_5)
     = Some 36.
Proof. split; vm_compute; reflexivity. Qed.

(** ** formatTime and formatHour *)

(** The minutes of an hour are padded to two digits. *)
Lemma minute_text (minute : Z) :
  0 <= minute < 60 ->
  Format.padStart (Format.integer_text minute) 2 "0"
  = if minute <? 10 then "0" ++ Format.integer_text minute
    else Format.integer_text minute.
Proof.
  intros Hm.
  apply String.eqb_eq.
  apply (range_forallb
           (fun m => String.eqb
                       (Format.padStart (Format.integer_text m) 2 "0")
                       (if m <? 10 then "0" ++ Format.integer_text m
                        else Format.integer_text m))
           60 0); [vm_compute; reflexivity | simpl; lia].
Qed.

(** X1. For an instant inside the range of dates, formatTime shows the
    twelve-hour clock of the second of the day (timestamp + offset) mod
    86400: the hour from 1 to 12 (12 at midnight and at noon, never 0),
    a colon, the minute on two digits, and AM before the 43200th second,
    PM from it on. *)
Theorem formatTime_clock (t offset : Z) :
  Z.abs ((t + offset) * 1000) <= Format.max_time ->
  exists hour minute,
    hour = (((t + offset) mod 86400) / 3600 + 11) mod 12 + 1
    /\ minute = (((t + offset) mod 86400) / 60) mod 60
    /\ 1 <= hour <= 12
    /\ 0 <= minute <= 59
    /\ Format.formatTime (defined t) (defined offset)
       = Format.integer_text hour ++ ":"
         ++ (if minute <? 10 then "0" ++ Format.integer_text minute
             else Format.integer_text minute)
         ++ " "
         ++ (if (t + offset) mod 86400 <? 43200 then "AM" else "PM").
Proof.
  intros Hvalid.
  set (x := t + offset) in *.
  exists ((x mod 86400 / 3600 + 11) mod 12 + 1), ((x mod 86400 / 60) mod 60).
  split; [reflexivity |]. split; [reflexivity |].
  split; [pose proof (Z.mod_pos_bound (x mod 86400 / 3600 + 11) 12); lia |].
  split; [pose proof (Z.mod_pos_bound (x mod 86400 / 60) 60); lia |].
  unfold Format.formatTime, Format.shifted_ms, Format.Date. fold x.
  destruct (Z.leb_spec (Z.abs (x * 1000)) Format.max_time) as [_ | Hout];
    [| lia].
  cbn [Format.getUTCHours Format.getUTCMinutes option_map].
  assert (Hh : x * 1000 / 3600000 mod 24 = x mod 86400 / 3600)
    by (Z.div_mod_to_equations; lia).
  assert (Hm : x * 1000 / 60000 mod 60 = (x mod 86400 / 60) mod 60)
    by (Z.div_mod_to_equations; lia).
  rewrite Hh, Hm.
  assert (Hrange : 0 <= x mod 86400 / 3600 < 24)
    by (Z.div_mod_to_equations; lia).
  set (h := x mod 86400 / 3600) in *.
  set (m := (x mod 86400 / 60) mod 60) in *.
  assert (Hmin : 0 <= m < 60) by (subst m; apply Z.mod_pos_bound; lia).
  unfold Format.hour12_of, Format.meridiem.
  rewrite Z.rem_mod_nonneg by lia.
  cbn [Format.number_text].
  rewrite (minute_text m Hmin).
  assert (Hhour : (if h mod 12 =? 0 then Some 12 else Some (h mod 12))
                  = Some ((h + 11) mod 12 + 1)).
  { destruct (Z.eqb_spec (h mod 12) 0) as [H0 | H0]; f_equal;
      Z.div_mod_to_equations; lia. }
  rewrite Hhour. cbn [Format.number_text].
  assert (Hpm : (12 <=? h) = negb (x mod 86400 <? 43200)).
  { subst h. destruct (Z.leb_spec 12 (x mod 86400 / 3600));
      destruct (Z.ltb_spec (x mod 86400) 43200); try reflexivity;
      exfalso; Z.div_mod_to_equations; lia. }
  rewrite Hpm. destruct (x mod 86400 <? 43200); reflexivity.
Qed.

Lemma formatTime_clock_witness :
  Format.formatTime (defined 1700000000) (defined 3600) = "11:13 PM".
Proof.
  destruct (formatTime_clock 1700000000 3600) as (h & m & -> & -> & _ & _ & H).
  - vm_compute. discriminate.
  - rewrite H. vm_compute. reflexivity.
Defined.

(** X3. A timestamp or an offset that is missing, or an instant outside
    of the range of dates, is shown as 12:NaN AM by formatTime and as
    12AM by formatHour: no error is raised. *)
Theorem formatTime_invalid :
  (forall offset,
      Format.formatTime undefined offset = "12:NaN AM"
      /\ Format.formatHour undefined offset false = "12AM")
  /\ (forall timestamp,
         Format.formatTime timestamp undefined = "12:NaN AM"
         /\ Format.formatHour timestamp undefined false = "12AM")
  /\ (forall t offset,
         Format.max_time < Z.abs ((t + offset) * 1000) ->
         Format.formatTime (defined t) (defined offset) = "12:NaN AM"
         /\ Format.formatHour (defined t) (defined offset) false = "12AM").
Proof.
  split; [| split].
  - intros offset. split; reflexivity.
  - intros [| t]; split; reflexivity.
  - intros t offset Hout.
    unfold Format.formatTime, Format.formatHour, Format.shifted_ms,
      Format.Date.
    destruct (Z.leb_spec (Z.abs ((t + offset) * 1000)) Format.max_time);
      [lia | split; reflexivity].
Qed.

Lemma clock_hour (x : Z) :
  Format.hour12_of (Some (x * 1000 / 3600000 mod 24))
  = Some ((x mod 86400 / 3600 + 11) mod 12 + 1).
Proof.
  assert (Hh : x * 1000 / 3600000 mod 24 = x mod 86400 / 3600)
    by (Z.div_mod_to_equations; lia).
  rewrite Hh.
  assert (Hrange : 0 <= x mod 86400 / 3600 < 24)
    by (Z.div_mod_to_equations; lia).
  set (h := x mod 86400 / 3600) in *.
  unfold Format.hour12_of. rewrite Z.rem_mod_nonneg by lia.
  destruct (Z.eqb_spec (h mod 12) 0) as [H0 | H0]; f_equal;
    Z.div_mod_to_equations; lia.
Qed.

Lemma clock_meridiem (x : Z) :
  Format.meridiem (Some (x * 1000 / 3600000 mod 24))
  = if x mod 86400 <? 43200 then "AM" else "PM".
Proof.
  unfold Format.meridiem.
  destruct (Z.leb_spec 12 (x * 1000 / 3600000 mod 24));
    destruct (Z.ltb_spec (x mod 86400) 43200); try reflexivity;
    exfalso; Z.div_mod_to_equations; lia.
Qed.

(** X2. For an instant inside the range of dates, formatHour shows the
    hour of the twelve-hour clock at timestamp + offset, from 1 to 12,
    directly followed by AM or PM (PM from noon on); for the first entry
    it shows Now, whatever the arguments. *)
Theorem formatHour_clock (t offset : Z) :
  Z.abs ((t + offset) * 1000) <= Format.max_time ->
  exists hour,
    hour = (((t + offset) mod 86400) / 3600 + 11) mod 12 + 1
    /\ 1 <= hour <= 12
    /\ Format.formatHour (defined t) (defined offset) false
       = Format.integer_text hour
         ++ (if (t + offset) mod 86400 <? 43200 then "AM" else "PM")
    /\ forall timestamp timezoneOffset,
         Format.formatHour timestamp timezoneOffset true = "Now".
Proof.
  intros Hvalid.
  exists (((t + offset) mod 86400 / 3600 + 11) mod 12 + 1).
  split; [reflexivity |].
  split;
    [pose proof (Z.mod_pos_bound ((t + offset) mod 86400 / 3600 + 11) 12);
     lia |].
  split; [| reflexivity].
  unfold Format.formatHour, Format.shifted_ms, Format.Date.
  destruct (Z.leb_spec (Z.abs ((t + offset) * 1000)) Format.max_time)
    as [_ | Hout]; [| lia].
  cbn [Format.getUTCHours option_map].
  rewrite clock_hour, clock_meridiem. reflexivity.
Qed.

Lemma formatHour_clock_witness :
  Format.formatHour (defined 1700000000) (defined 3600) false = "11PM".
Proof.
  destruct (formatHour_clock 1700000000 3600) as (h & -> & _ & H & _).
  - vm_compute. discriminate.
  - rewrite H. vm_compute. reflexivity.
Defined.

(** ** The hourly strip *)

Lemma hour_labels_from_length (index : nat) (hours : list (optional Z))
    (timezone_offset : optional Z) :
  length (Screen.hour_labels_from index hours timezone_offset) = length hours.
Proof.
  revert index. induction hours as [| dt rest IH]; intros index;
    [reflexivity | simpl; rewrite IH; reflexivity].
Qed.

Lemma hour_labels_from_nth (index i : nat) (hours : list (optional Z))
    (timezone_offset : optional Z) (dt : optional Z) :
  nth_error hours i = Some dt ->
  nth_error (Screen.hour_labels_from index hours timezone_offset) i
  = Some (Format.formatHour dt timezone_offset (Nat.eqb (index + i) 0)).
Proof.
  revert index i. induction hours as [| d rest IH]; intros index i Hi.
  - destruct i; discriminate.
  - destruct i as [| j].
    + injection Hi as ->. simpl. rewrite Nat.add_0_r. reflexivity.
    + simpl in Hi. simpl. rewrite (IH (S index) j Hi).
      replace (S index + j)%nat with (index + S j)%nat by lia. reflexivity.
Qed.

(** X4. The hourly strip shows the first 24 entries of the hourly
    array, and no more; its first label is Now whatever the timestamp of
    the first entry, and the label of every later entry shown is the hour
    of that entry with AM or PM. *)
Theorem hour_labels_strip (hourly : list (optional Z))
    (timezone_offset : optional Z) :
  length (Screen.hour_labels hourly timezone_offset)
  = Nat.min 24 (length hourly)
  /\ (hourly <> [] ->
      nth_error (Screen.hour_labels hourly timezone_offset) 0 = Some "Now")
  /\ (forall i dt,
        (0 < i < 24)%nat -> nth_error hourly i = Some dt ->
        nth_error (Screen.hour_labels hourly timezone_offset) i
        = Some (Format.formatHour dt timezone_offset false)).
Proof.
  unfold Screen.hour_labels. split; [| split].
  - rewrite hour_labels_from_length. apply length_firstn.
  - intros Hne. destruct hourly as [| dt rest]; [contradiction |].
    reflexivity.
  - intros i dt Hi Hnth.
    assert (Hfirst : nth_error (firstn 24 hourly) i = Some dt)
      by (rewrite nth_error_firstn;
          destruct (Nat.ltb_spec i 24); [exact Hnth | lia]).
    rewrite (hour_labels_from_nth 0 i _ timezone_offset dt Hfirst).
    destruct i; [lia | reflexivity].
Qed.

(** ** formatVisibility *)

Lemma visibility_checked :
  forallb visibility_check (Format.range (Z.to_nat 19001) 1000) = true.
Proof. vm_cast_no_check (eq_refl true). Qed.

(** X5. For a whole count of meters from 0 to 20000: below 1000 the
    text is the count and m; on a multiple of 1000 it is the count of
    kilometers, with no decimal, and km; otherwise it is a number of
    kilometers with one decimal, also when that decimal is 0, within 50
    meters of the count, and km. *)
Theorem formatVisibility_cases (m : Z) :
  0 <= m <= 20000 ->
  (m < 1000 ->
   Format.formatVisibility (defined m)
   = Some (Format.integer_text m ++ " m"))
  /\ (1000 <= m -> m mod 1000 = 0 ->
      Format.formatVisibility (defined m)
      = Some (Format.integer_text (m / 1000) ++ " km"))
  /\ (1000 <= m -> m mod 1000 <> 0 ->
      exists tenths,
        0 <= tenths /\ Z.abs (100 * tenths - m) <= 50
        /\ Format.formatVisibility (defined m)
           = Some ((Format.integer_text (tenths / 10) ++ "."
                    ++ Format.integer_text (tenths mod 10)) ++ " km")).
Proof.
  intros Hm. split; [| split].
  - intros Hlow. unfold Format.formatVisibility.
    destruct (Z.leb_spec 1000 m); [lia | reflexivity].
  - intros Hhigh Hmult.
    pose proof (range_forallb visibility_check _ _ visibility_checked m
                  ltac:(lia)) as Hcheck.
    unfold visibility_check in Hcheck. unfold Format.formatVisibility.
    destruct (Z.leb_spec 1000 m); [| lia].
    destruct (Binary64.exact _) as [km |]; [| discriminate].
    rewrite (proj2 (Z.eqb_eq _ _) Hmult) in Hcheck.
    apply andb_prop in Hcheck as [Hwhole Hkm].
    rewrite Hwhole. apply Z.eqb_eq in Hkm. rewrite Hkm. reflexivity.
  - intros Hhigh Hmult.
    pose proof (range_forallb visibility_check _ _ visibility_checked m
                  ltac:(lia)) as Hcheck.
    unfold visibility_check in Hcheck. unfold Format.formatVisibility.
    destruct (Z.leb_spec 1000 m); [| lia].
    destruct (Binary64.exact _) as [km |]; [| discriminate].
    rewrite (proj2 (Z.eqb_neq _ _) Hmult) in Hcheck.
    apply andb_prop in Hcheck as [Hcheck Hpos].
    apply andb_prop in Hcheck as [Hwhole Hnear].
    apply negb_true_iff in Hwhole. rewrite Hwhole.
    exists (Qfloor (km * (10 # 1) + (1 # 2))).
    split; [apply Z.leb_le, Hpos |].
    split; [apply Z.leb_le, Hnear | unfold Format.toFixed1; reflexivity].
Qed.

Lemma formatVisibility_cases_witness :
  Format.formatVisibility (defined 10000) = Some "10 km"
  /\ Format.formatVisibility (defined 800) = Some "800 m".
Proof.
  assert (H10000 : 0 <= 10000 <= 20000) by (split; discriminate).
  assert (H800 : 0 <= 800 <= 20000) by (split; discriminate).
  split.
  - exact (proj1 (proj2 (formatVisibility_cases 10000 H10000))
             ltac:(discriminate) eq_refl).
  - exact (proj1 (formatVisibility_cases 800 H800) eq_refl).
Defined.

(** The decimal of a count that lies half way between two tenths goes
    by the binary64 quotient: up at 1250 meters, down at 1150; and a
    count just below a multiple of 1000 shows a decimal 0. *)
Example formatVisibility_ties :
  Format.formatVisibility (defined 1250) = Some "1.3 km"
  /\ Format.formatVisibility (defined 1150) = Some "1.1 km"
  /\ Format.formatVisibility (defined 1960) = Some "2.0 km"
  /\ Format.formatVisibility (defined 1500) = Some "1.5 km".
Proof. repeat split; vm_compute; reflexivity. Qed.

(** ** getWindDirection: sectors *)

(** [Math.round] gives [k] exactly on the interval of length 1 that
    starts at [k - 1/2]. *)
Lemma Math_round_eq (x : Q) (k : Z) :
  (inject_Z k - (1 # 2) <= x)%Q -> (x < inject_Z k + (1 # 2))%Q ->
  Math_round x = k.
Proof.
  intros Hlo Hhi. destruct (Math_round_nearest x) as [H1 H2].
  assert (Hgt : k - 1 < Math_round x).
  { rewrite Zlt_Qlt. unfold Z.sub. rewrite inject_Z_plus.
    change (inject_Z (- (1))) with (- (1))%Q. lra. }
  assert (Hlt : Math_round x < k + 1).
  { rewrite Zlt_Qlt. rewrite inject_Z_plus.
    change (inject_Z 1) with 1%Q. lra. }
  lia.
Qed.

(** X6. Every compass point owns the sector of 45 degrees around its
    bearing, the lower edge included: a direction d up to 360 of the
    k-th sector, 45 k - 22.5 <= d < 45 k + 22.5 with k >= 0, gives the
    point of index k mod 8.  There are nine such sectors, k from 0 to
    8: 22.5 is already NE, and from 337.5 to 360 the point is N
    again. *)
Theorem getWindDirection_sector (d : Q) (k : Z) :
  0 <= k ->
  (d <= 360 # 1)%Q ->
  (inject_Z (45 * k) - (45 # 2) <= d)%Q ->
  (d < inject_Z (45 * k) + (45 # 2))%Q ->
  k <= 8
  /\ exists point,
       nth_error directions (Z.to_nat (k mod 8)) = Some point
       /\ getWindDirection (defined d) = defined point.
Proof.
  intros Hk Hd Hlo Hhi.
  assert (Hsector : k <= 8).
  { assert (H : k < 9); [| lia].
    rewrite Zlt_Qlt. rewrite inject_Z_mult in Hlo.
    change (inject_Z 45) with (45 # 1)%Q in Hlo.
    change (inject_Z 9) with (9 # 1)%Q. lra. }
  split; [exact Hsector |].
  assert (Hround : Math_round (d / (45 # 1)) = k).
  { apply Math_round_eq.
    - apply Qle_shift_div_l; [reflexivity |].
      rewrite inject_Z_mult in Hlo. change (inject_Z 45) with (45 # 1)%Q in Hlo.
      lra.
    - apply Qlt_shift_div_r; [reflexivity |].
      rewrite inject_Z_mult in Hhi. change (inject_Z 45) with (45 # 1)%Q in Hhi.
      lra. }
  assert (Hindex : wind_index d = k mod 8).
  { unfold wind_index. rewrite Hround. apply Z.rem_mod_nonneg; lia. }
  pose proof (Z.mod_pos_bound k 8 ltac:(lia)) as Hbound.
  destruct (directions_in_bounds (k mod 8) ltac:(lia))
    as (point & Hnth & Hat & _).
  exists point. split; [exact Hnth |].
  unfold getWindDirection. rewrite Hindex. exact Hat.
Qed.

Lemma getWindDirection_sector_witness :
  8 <= 8
  /\ exists point,
       nth_error directions (Z.to_nat (8 mod 8)) = Some point
       /\ getWindDirection (defined (675 # 2)%Q) = defined point.
Proof.
  apply (getWindDirection_sector (675 # 2) 8); discriminate || reflexivity.
Defined.

(** X7. A negative direction is not brought back into the circle: from
    -22.5 on it still rounds to N, but between -337.5 and -22.5 the index
    is negative and the function returns undefined. *)
Theorem getWindDirection_negative_degrees (d : Q) :
  (d < 0)%Q ->
  ((- (45 # 2) <= d)%Q -> getWindDirection (defined d) = defined "N")
  /\ ((- (675 # 2) <= d)%Q -> (d < - (45 # 2))%Q ->
      getWindDirection (defined d) = undefined).
Proof.
  intros Hneg. split.
  - intros Hlo.
    assert (Hround : Math_round (d / (45 # 1)) = 0).
    { apply Math_round_eq.
      - apply Qle_shift_div_l; [reflexivity |]. change (inject_Z 0) with 0%Q. lra.
      - apply Qlt_shift_div_r; [reflexivity |]. change (inject_Z 0) with 0%Q. lra. }
    unfold getWindDirection, wind_index. rewrite Hround. reflexivity.
  - intros Hlo Hhi.
    assert (Hround : -7 <= Math_round (d / (45 # 1)) <= -1).
    { destruct (Math_round_nearest (d / (45 # 1))) as [H1 H2].
      assert (Hq1 : (- (15 # 2) <= d / (45 # 1))%Q)
        by (apply Qle_shift_div_l; [reflexivity | lra]).
      assert (Hq2 : (d / (45 # 1) < - (1 # 2))%Q)
        by (apply Qlt_shift_div_r; [reflexivity | lra]).
      split.
      - assert (H : -8 < Math_round (d / (45 # 1)))
          by (rewrite Zlt_Qlt; change (inject_Z (-8)) with (- (8 # 1))%Q; lra).
        lia.
      - assert (H : Math_round (d / (45 # 1)) < 0)
          by (rewrite Zlt_Qlt; change (inject_Z 0) with 0%Q; lra).
        lia. }
    unfold getWindDirection, wind_index.
    remember (Math_round (d / (45 # 1))) as n eqn:Hn. clear Hn.
    assert (Hcases : n = -7 \/ n = -6 \/ n = -5 \/ n = -4
                     \/ n = -3 \/ n = -2 \/ n = -1) by lia.
    repeat (destruct Hcases as [Hcases | Hcases]; [subst n; reflexivity |]).
    subst n. reflexivity.
Qed.

Lemma getWindDirection_negative_degrees_witness :
  getWindDirection (defined (- (90 # 1))%Q) = undefined.
Proof.
  apply (proj2 (getWindDirection_negative_degrees (- (90 # 1))
                  ltac:(reflexivity)));
    [discriminate | reflexivity].
Defined.

(** ** convertTemp: order and whole degrees *)

Lemma Math_round_monotone (x y : Q) :
  (x <= y)%Q -> Math_round x <= Math_round y.
Proof. intros H. unfold Math_round. apply Qfloor_resp_le. lra. Qed.

(** X8. In both units the displayed temperature grows with the
    temperature: a higher reading is never displayed below a lower one, so
    the High of the day is never displayed below its Low. *)
Theorem convertTemp_monotone (isCelsius : bool) (low high : Q) :
  (low <= high)%Q ->
  convertTemp isCelsius low <= convertTemp isCelsius high.
Proof.
  intros H. unfold convertTemp. destruct isCelsius.
  - apply Math_round_monotone, H.
  - apply Math_round_monotone.
    assert (Hl : (low * (9 # 1) / (5 # 1) == low * (9 # 5))%Q) by field.
    assert (Hh : (high * (9 # 1) / (5 # 1) == high * (9 # 5))%Q) by field.
    rewrite Hl, Hh. lra.
Qed.

Lemma convertTemp_monotone_witness :
  convertTemp false (71 # 10) <= convertTemp false (153 # 10).
Proof. apply (convertTemp_monotone false); discriminate. Defined.

Lemma whole_degrees_checked :
  forallb whole_degrees_check (Format.range (Z.to_nat 2001) (-1000)) = true.
Proof. vm_cast_no_check (eq_refl true). Qed.

(** X9. A whole number n of degrees from -1000 to 1000 is displayed as
    it is in Celsius, and as the floor of (18 n + 325) / 10 in
    Fahrenheit: the dew point, which calculateDewPoint has rounded
    already, is displayed unchanged in Celsius and rounded a second time
    in Fahrenheit. *)
Theorem convertTemp_whole (n : Z) :
  -1000 <= n <= 1000 ->
  Binary64.convertTemp true (Binary64.integer n) = Some n
  /\ Binary64.convertTemp false (Binary64.integer n)
     = Some ((18 * n + 325) / 10).
Proof.
  intros Hn.
  pose proof (range_forallb whole_degrees_check _ _ whole_degrees_checked n
                ltac:(lia)) as Hcheck.
  unfold whole_degrees_check in Hcheck.
  destruct (Binary64.convertTemp true (Binary64.integer n)) as [celsius |];
    [| discriminate].
  destruct (Binary64.convertTemp false (Binary64.integer n))
    as [fahrenheit |]; [| discriminate].
  apply andb_prop in Hcheck as [Hc Hf].
  apply Z.eqb_eq in Hc, Hf. subst. split; reflexivity.
Qed.

Lemma convertTemp_whole_witness :
  Binary64.convertTemp true (Binary64.integer 17) = Some 17
  /\ Binary64.convertTemp false (Binary64.integer 17) = Some 63.
Proof. apply (convertTemp_whole 17). split; discriminate. Defined.

(** ** The classifier, the theme table and the animation *)

(** X10. Whatever type the classifier returns has an entry of its own in
    WEATHER_THEMES, so the theme of a classified snapshot never comes from
    the fallback; and it has an animation of its own in WeatherAnimation,
    except default, which has none. *)
Theorem classified_type_is_themed (data : weather_json) (code : optional Z)
    (iconCode : string) (others : list condition) :
  weather data = defined (mkCondition code (defined iconCode) :: others) ->
  exists type entry,
    getWeatherType (Some data) = Normal type
    /\ get_property WEATHER_THEMES type = defined entry
    /\ theme_of type = defined entry
    /\ (Screen.WeatherAnimation type false = None <-> type = "default")
    /\ (forall other,
          In other Spec.weather_types -> other <> type ->
          Screen.WeatherAnimation other false
          <> Screen.WeatherAnimation type false).
Proof.
  intros Hw.
  destruct (getWeatherType_entry_tag data code iconCode others Hw)
    as (type & Hrun & Hin).
  exists type. unfold Spec.weather_types in *. cbn [In] in Hin.
  assert (Hcases : forall P : string -> Prop,
             P "thunderstorm" -> P "rain" -> P "snow" -> P "cloudy"
             -> P "sunny" -> P "night" -> P "default" -> P type).
  { intros P H1 H2 H3 H4 H5 H6 H7.
    destruct Hin as [<- | [<- | [<- | [<- | [<- | [<- | [<- | []]]]]]]];
      assumption. }
  revert Hrun. pattern type. apply Hcases; intros Hrun; eexists;
    (split; [exact Hrun |]); (split; [reflexivity |]);
    (split; [reflexivity |]);
    (split; [split; [discriminate || reflexivity
                    | discriminate || reflexivity] |]);
    intros other Hother Hne; cbn [In] in Hother;
    destruct Hother as [<- | [<- | [<- | [<- | [<- | [<- | [<- | []]]]]]]];
    (congruence || (cbn; discriminate)).
Qed.

Lemma classified_type_is_themed_witness :
  exists type entry,
    getWeatherType (reading 741 "50d") = Normal type
    /\ get_property WEATHER_THEMES type = defined entry.
Proof.
  destruct (classified_type_is_themed
              (mkWeather (defined [mkCondition (defined 741) (defined "50d")])
                         undefined undefined)
              (defined 741) "50d" [] eq_refl)
    as (type & entry & Hrun & Hown & _).
  exists type, entry. split; assumption.
Defined.

(** X11. The splashes of the stat cards are on exactly for the codes
    from 200 to 599, the snow piles exactly for the codes from 600 to 699,
    whatever the icon: never both. *)
Theorem splash_and_snow_pile (data : weather_json) (code : Z)
    (iconCode : string) (others : list condition) :
  weather data
    = defined (mkCondition (defined code) (defined iconCode) :: others) ->
  exists type,
    getWeatherType (Some data) = Normal type
    /\ (Screen.isRaining type = true <-> 200 <= code < 600)
    /\ (Screen.isSnowing type = true <-> 600 <= code < 700)
    /\ Screen.isRaining type && Screen.isSnowing type = false.
Proof.
  intros Hw.
  rewrite (getWeatherType_entry data (defined code) iconCode others Hw).
  cbn [ge lt le strict_eq]. cbv zeta.
  compare_codes; destruct (includes iconCode "n"); eexists;
    (split; [reflexivity |]); cbn;
    repeat split; intros; try discriminate; try lia.
Qed.

Lemma splash_and_snow_pile_witness :
  exists type,
    getWeatherType (reading 302 "09n") = Normal type
    /\ Screen.isRaining type = true.
Proof.
  destruct (splash_and_snow_pile
              (mkWeather (defined [mkCondition (defined 302) (defined "09n")])
                         undefined undefined)
              302 "09n" [] eq_refl)
    as (type & Hrun & Hrain & _).
  exists type. split; [exact Hrun |].
  apply Hrain. split; [discriminate | reflexivity].
Defined.

(** ** The precipitation chart and the UV bar *)

Lemma existsb_firstn_skipn {A : Type} (p : A -> bool) (n : nat) (l : list A) :
  existsb p l = existsb p (firstn n l) || existsb p (skipn n l).
Proof.
  rewrite <- existsb_app, firstn_skipn. reflexivity.
Qed.

(** X12. The precipitation chart has at most 60 bars, each at least 2
    high, and one of them has the accent colour exactly when one of the
    first 60 minutes has precipitation.  The section is shown when any
    minute of the array has precipitation, also one after the 60th: then
    the chart is shown with no bar in the accent colour. *)
Theorem precipitation_chart (minutely : list Q) :
  length (Screen.chart_bars minutely) = Nat.min 60 (length minutely)
  /\ Forall (fun b => (2 # 1 <= Screen.height b)%Q)
            (Screen.chart_bars minutely)
  /\ (existsb Screen.accented (Screen.chart_bars minutely)
      = existsb Screen.positive (firstn 60 minutely))
  /\ (existsb Screen.positive (firstn 60 minutely) = false ->
      existsb Screen.positive (skipn 60 minutely) = true ->
      Screen.chart_shown minutely = true
      /\ existsb Screen.accented (Screen.chart_bars minutely) = false).
Proof.
  unfold Screen.chart_bars, Screen.chart_shown.
  split; [rewrite length_map; apply length_firstn |].
  split.
  { apply Forall_map, Forall_forall. intros p _. cbn [Screen.height].
    unfold Screen.Math_max.
    destruct (Qle_bool (p * (20 # 1)) (2 # 1)) eqn:E.
    - apply Qle_refl.
    - apply Qle_bool_false in E. apply Qlt_le_weak, E. }
  assert (Hacc : existsb Screen.accented
                   (map (fun precipitation =>
                           Screen.mkBar
                             (Screen.Math_max (precipitation * (20 # 1))
                                (2 # 1))
                             (Screen.positive precipitation))
                        (firstn 60 minutely))
                 = existsb Screen.positive (firstn 60 minutely)).
  { induction (firstn 60 minutely) as [| p rest IH];
      [reflexivity | cbn; rewrite IH; reflexivity]. }
  split; [exact Hacc |].
  intros Hfirst Hlater. split.
  - rewrite (existsb_firstn_skipn _ 60), Hfirst, Hlater. reflexivity.
  - rewrite Hacc. exact Hfirst.
Qed.

(** X13. The UV bar is never wider than 100 percent.  It is full
    exactly from an index of 11 on, and there the level is Extreme. *)
Theorem uv_bar (uvi : Q) :
  (Screen.uv_bar_width uvi <= 100 # 1)%Q
  /\ ((Screen.uv_bar_width uvi == 100 # 1)%Q <-> (11 # 1 <= uvi)%Q)
  /\ ((11 # 1 <= uvi)%Q -> label (getUVLevel uvi) = "Extreme").
Proof.
  assert (Hw : (uvi / (11 # 1) * (100 # 1) == uvi * (100 # 11))%Q) by field.
  assert (Hextreme : (11 # 1 <= uvi)%Q -> label (getUVLevel uvi) = "Extreme").
  { intros H. unfold getUVLevel.
    repeat match goal with
           | |- context [Qle_bool uvi ?c] =>
               let E := fresh "E" in
               destruct (Qle_bool uvi c) eqn:E;
               [apply Qle_bool_iff in E; exfalso; lra | clear E]
           end.
    reflexivity. }
  unfold Screen.uv_bar_width, Screen.Math_min.
  destruct (Qle_bool (uvi / (11 # 1) * (100 # 1)) (100 # 1)) eqn:E.
  - apply Qle_bool_iff in E. split; [exact E |]. split; [| exact Hextreme].
    rewrite Hw in *. split; intros H; lra.
  - apply Qle_bool_false in E. split; [apply Qle_refl |].
    split; [| exact Hextreme].
    rewrite Hw in E. split; intros H; [lra | reflexivity].
Qed.

(** ** handleSearch and getLocation *)

Lemma strip_blank (text : string) :
  Session.blank text ->
  forall fuel, (String.length text <= fuel)%nat ->
  Session.strip Session.white_space fuel text = "".
Proof.
  induction 1 as [| space rest Hin _ IH]; intros fuel Hfuel.
  - destruct fuel; reflexivity.
  - unfold Session.white_space in Hin. cbn in Hin.
    repeat (destruct Hin as [<- | Hin];
            [cbn in Hfuel; destruct fuel as [| fuel]; [lia |];
             change (Session.strip Session.white_space fuel rest = "");
             apply IH; lia |]).
    destruct Hin.
Qed.

Lemma trim_blank (text : string) : Session.blank text -> Session.trim text = "".
Proof.
  intros H. unfold Session.trim, Session.trimStart.
  rewrite (strip_blank text H _ (le_n _)). reflexivity.
Qed.

(** X14. [handleSearch] on a city field that holds white space only (or
    nothing) does nothing at all: no request, no spinner, no error, the
    state is the one before.  On any other text it calls
    [fetchWeatherByCity] on the trimmed text, and the event ends as that
    call does: this holds whatever the function called does with its
    argument, so it is the trimmed text and not the text of the field
    that is passed. *)
Theorem handleSearch_blank (text : string) (s : App.state)
    (wf : App.promise (App.response snapshot))
    (ff : App.promise (App.response (option forecast_json))) :
  App.city s = defined text ->
  (Session.blank text ->
   App.run (Session.handleSearch wf ff) s
   = App.Done tt (App.mkComponent s false))
  /\ (Session.trim text <> "" ->
      forall fetchWeatherByCity : string -> App.action unit,
        App.run (Session.handleSearch_with fetchWeatherByCity) s
        = App.run (fetchWeatherByCity (Session.trim text)) s)
  /\ Session.handleSearch wf ff
     = Session.handleSearch_with
         (fun cityName => App.fetchWeatherByCity cityName wf ff).
Proof.
  intros Hcity. split; [| split; [| reflexivity]].
  - intros Hblank.
    unfold App.run, Session.handleSearch, Session.handleSearch_with,
      App.and_then.
    cbn [App.current]. rewrite Hcity.
    cbn [Session.city_trim App.eval App.ret].
    rewrite (trim_blank text Hblank). reflexivity.
  - intros Hfull fetchWeatherByCity. apply String.eqb_neq in Hfull.
    unfold App.run, Session.handleSearch_with, App.and_then.
    cbn [App.current]. rewrite Hcity.
    cbn [Session.city_trim App.eval App.ret]. rewrite Hfull. reflexivity.
Qed.

Lemma handleSearch_blank_witness :
  App.run (Session.handleSearch Scenario.unreachable Scenario.unreachable)
    (App.mkState (defined "   ") None [] None false None "default" false
       false)
  = App.Done tt
      (App.mkComponent
         (App.mkState (defined "   ") None [] None false None "default"
            false false) false)
  /\ App.run
       (Session.handleSearch_with
          (fun cityName => App.setCity (defined cityName)))
       (App.mkState (defined " Oslo ") None [] None false None "default"
          false false)
     = App.run (App.setCity (defined "Oslo"))
         (App.mkState (defined " Oslo ") None [] None false None "default"
            false false).
Proof.
  split.
  - apply (proj1 (handleSearch_blank "   "
                    (App.mkState (defined "   ") None [] None false None
                       "default" false false)
                    Scenario.unreachable Scenario.unreachable eq_refl)).
    apply (Session.blank_more " " "  "); [simpl; tauto |].
    apply (Session.blank_more " " " "); [simpl; tauto |].
    apply (Session.blank_more " " ""); [simpl; tauto |].
    apply Session.blank_empty.
  - apply (proj1 (proj2 (handleSearch_blank " Oslo "
                           (App.mkState (defined " Oslo ") None [] None
                              false None "default" false false)
                           Scenario.unreachable Scenario.unreachable
                           eq_refl))).
    vm_compute. discriminate.
Defined.

(** X15. [getLocation] without a position.  When the permission is not
    granted the error is 'Location permission denied'; when the
    permission request or the position request fails, or the position
    has no coordinates, it is 'Could not get location'.  In each case
    the spinner is off again, no weather request has been read, and the
    snapshot, the forecast and the extended conditions on display stay
    as they were. *)
Theorem getLocation_refused (s : App.state)
    (position : App.promise Session.location_object)
    (wf : App.promise (App.response snapshot))
    (ff : App.promise (App.response (option forecast_json))) :
  (forall status,
      status <> "granted" ->
      App.run (Session.getLocation (App.Fulfilled status) position wf ff) s
      = App.Done tt
          (App.mkComponent
             (Session.with_error s "Location permission denied") false))
  /\ (forall e,
         App.run (Session.getLocation (App.Rejected e) position wf ff) s
         = App.Done tt
             (App.mkComponent
                (Session.with_error s "Could not get location") false))
  /\ (forall e,
         App.run
           (Session.getLocation (App.Fulfilled "granted") (App.Rejected e)
              wf ff) s
         = App.Done tt
             (App.mkComponent
                (Session.with_error s "Could not get location") false))
  /\ App.run
       (Session.getLocation (App.Fulfilled "granted")
          (App.Fulfilled (Session.mkLocation undefined)) wf ff) s
     = App.Done tt
         (App.mkComponent
            (Session.with_error s "Could not get location") false).
Proof.
  split; [| split; [| split]].
  - intros status Hstatus. apply String.eqb_neq in Hstatus.
    unfold App.run, Session.getLocation, App.try_catch,
      App.try_catch_finally, App.and_then. cbn. rewrite Hstatus. reflexivity.
  - intros e. reflexivity.
  - intros e. reflexivity.
  - reflexivity.
Qed.

Lemma fetchWeatherByCoords_returns (latitude longitude : Q)
    (wf : App.promise (App.response snapshot))
    (ff : App.promise (App.response (option forecast_json)))
    (c : App.component) :
  match App.fetchWeatherByCoords latitude longitude wf ff c with
  | App.Raised _ _ => False
  | _ => True
  end.
Proof.
  unfold App.fetchWeatherByCoords, App.try_catch_finally.
  match goal with
  | |- context [match ?body c with _ => _ end] => destruct (body c)
  end; cbn; exact I.
Qed.

Lemma render_returns (c : App.component) :
  match App.render c with
  | App.Raised _ _ => False
  | _ => True
  end.
Proof.
  unfold App.render, App.useEffect_weather.
  destruct (App.weather_changed c); [| exact I]. cbn [App.current].
  destruct (App.weather (App.current c)) as [data |]; [| exact I].
  generalize (getWeatherType (Some data)). intros [type | e]; exact I.
Qed.

Lemma render_twice (c : App.component) :
  App.and_then App.render (fun _ => App.render) c = App.render c.
Proof.
  unfold App.and_then, App.render.
  destruct (App.weather_changed c) eqn:Hflag.
  - unfold App.useEffect_weather. cbn [App.current].
    destruct (App.weather (App.current c)) as [data |]; [| reflexivity].
    generalize (getWeatherType (Some data)). intros [type | e]; reflexivity.
  - rewrite Hflag. reflexivity.
Qed.

(** X16. With the permission granted and a position, [getLocation] ends
    as [fetchWeatherByCoords] does on the coordinates of the position:
    the same state, or the same teardown. *)
Theorem getLocation_granted (s : App.state) (latitude longitude : Q)
    (wf : App.promise (App.response snapshot))
    (ff : App.promise (App.response (option forecast_json))) :
  App.run
    (Session.getLocation (App.Fulfilled "granted")
       (App.Fulfilled (Session.mkLocation (defined (latitude, longitude))))
       wf ff) s
  = App.run (App.fetchWeatherByCoords latitude longitude wf ff) s.
Proof.
  unfold App.run.
  pose proof (fetchWeatherByCoords_returns latitude longitude wf ff
                (App.mkComponent s false)) as Hreturns.
  pose proof (render_twice) as Htwice.
  unfold App.and_then in *.
  unfold Session.getLocation, App.try_catch, App.try_catch_finally,
    App.and_then. cbn.
  change (App.fetchWeatherByCoords latitude longitude wf ff
            {| App.current :=
                 App.mkState (App.city s) (App.weather s) (App.forecast s)
                   (App.oneCallData s) true (App.error s) (App.weatherType s)
                   (App.isCelsius s) (App.hasLoadedWeather s);
               App.weather_changed := false |})
    with (App.fetchWeatherByCoords latitude longitude wf ff
            (App.mkComponent s false)).
  destruct (App.fetchWeatherByCoords latitude longitude wf ff
              (App.mkComponent s false)) as [[] c' | e c' | e];
    [| destruct Hreturns | reflexivity].
  specialize (Htwice c'). unfold App.await, App.and_then, App.ret.
  pose proof (render_returns c') as Hrender.
  destruct (App.render c') as [[] c'' | e c'' | e];
    [exact Htwice | destruct Hrender | reflexivity].
Qed.

(** ** fetchOneCallData *)

(** X17. The fallback of [fetchOneCallData].  The answer of version 2.5
    is read only when version 3.0 has answered and the answer is not
    ok; a 3.0 request that fails, or a 3.0 answer whose body cannot be
    read, gives [null] without a second request being read.  The
    function never ends with an exception, and it writes the
    [oneCallData] cell only. *)
Theorem fetchOneCallData_fallback (s : App.state)
    (v25 : App.promise (App.response (option onecall_json))) :
  (forall data,
      App.settled
        (App.run
           (App.fetchOneCallData
              (App.Fulfilled (App.mkResponse true (App.Fulfilled data)))
              v25) s)
      = Some (Session.with_oneCallData s data))
  /\ (forall e,
         App.settled
           (App.run
              (App.fetchOneCallData
                 (App.Fulfilled (App.mkResponse true (App.Rejected e)))
                 v25) s)
         = Some (Session.with_oneCallData s None))
  /\ (forall e,
         App.settled (App.run (App.fetchOneCallData (App.Rejected e) v25) s)
         = Some (Session.with_oneCallData s None))
  /\ (forall body,
         App.settled
           (App.run
              (App.fetchOneCallData
                 (App.Fulfilled (App.mkResponse false body)) v25) s)
         = match v25 with
           | App.Fulfilled (App.mkResponse true _) =>
               App.settled (App.run (App.fetchOneCallData v25 v25) s)
           | _ => Some (Session.with_oneCallData s None)
           end).
Proof.
  split; [| split; [| split]]; intros; try reflexivity.
  destruct v25 as [[[] [data25 | e25]] | e25]; reflexivity.
Qed.

(** ** The App component: what a session keeps *)

Lemma unchanged_try_catch_finally {A B : Type} (f : App.state -> B)
    (body : App.action A) (handler : exn -> App.action A)
    (finalizer : App.action unit) :
  App.unchanged f body -> (forall e, App.unchanged f (handler e)) ->
  App.unchanged f finalizer ->
  App.unchanged f (App.try_catch_finally body handler finalizer).
Proof.
  intros Hb Hh Hf c. unfold App.try_catch_finally, App.and_then.
  specialize (Hb c). destruct (body c) as [a c1 | e c1 | e]; [| | exact I].
  - specialize (Hf c1). destruct (finalizer c1) as [[] c2 | e c2 | e];
      cbn; [congruence | congruence | exact I].
  - specialize (Hh e c1).
    destruct (handler e c1) as [a c2 | e2 c2 | e2]; [| | exact I];
      specialize (Hf c2); destruct (finalizer c2) as [[] c3 | e3 c3 | e3];
      cbn; try exact I; congruence.
Qed.

Lemma run_unchanged {B : Type} (f : App.state -> B) (m : App.action unit)
    (s s' : App.state) :
  App.ignores_weatherType f -> App.unchanged f m ->
  App.settled (App.run m s) = Some s' -> f s' = f s.
Proof.
  intros Hf Hm. unfold App.run.
  assert (H : App.unchanged f (App.and_then m (fun _ => App.render)))
    by (apply unchanged_and_then;
        [exact Hm | intros _; apply unchanged_render, Hf]).
  specialize (H (App.mkComponent s false)).
  destruct (App.and_then m _ _) as [[] c | e c | e]; cbn;
    [| discriminate | discriminate].
  intros [= <-]. exact H.
Qed.

Section Preservation.

Context (I : App.component -> Prop).

Lemma preserves_ret {A : Type} (a : A) : Session.preserves I (App.ret a).
Proof. intros c H. exact H. Qed.

Lemma preserves_throw {A : Type} (e : exn) :
  Session.preserves I (@App.throw A e).
Proof. intros c H. exact H. Qed.

Lemma preserves_eval {A : Type} (v : completion A) :
  Session.preserves I (App.eval v).
Proof. destruct v; intros c H; exact H. Qed.

Lemma preserves_and_then {A A' : Type} (m : App.action A)
    (k : A -> App.action A') :
  Session.preserves I m -> (forall a, Session.preserves I (k a)) ->
  Session.preserves I (App.and_then m k).
Proof.
  intros Hm Hk c H. unfold App.and_then.
  specialize (Hm c H). destruct (m c) as [a c' | e c' | e]; try exact Hm.
  exact (Hk a c' Hm).
Qed.

Lemma preserves_try_catch_finally {A : Type} (body : App.action A)
    (handler : exn -> App.action A) (finalizer : App.action unit) :
  Session.preserves I body -> (forall e, Session.preserves I (handler e)) ->
  Session.preserves I finalizer ->
  Session.preserves I (App.try_catch_finally body handler finalizer).
Proof.
  intros Hb Hh Hf c H. unfold App.try_catch_finally, App.and_then.
  specialize (Hb c H). destruct (body c) as [a c1 | e c1 | e]; [| | exact Logic.I].
  - specialize (Hf c1 Hb). destruct (finalizer c1) as [[] c2 | e c2 | e];
      exact Hf.
  - specialize (Hh e c1 Hb).
    destruct (handler e c1) as [a c2 | e2 c2 | e2]; [| | exact Logic.I];
      specialize (Hf c2 Hh); destruct (finalizer c2) as [[] c3 | e3 c3 | e3];
      exact Hf.
Qed.

Lemma preserves_await {A : Type} (p : App.promise A) :
  Session.preserves I App.render -> Session.preserves I (App.await p).
Proof.
  intros Hr. unfold App.await. apply preserves_and_then; [exact Hr |].
  intros _. destruct p; [apply preserves_ret | apply preserves_throw].
Qed.

End Preservation.

#[local] Hint Resolve preserves_ret preserves_throw preserves_eval
  preserves_and_then preserves_try_catch_finally preserves_await : session.
#[local] Hint Extern 1 (Session.keeps_snapshot _) =>
  intros ?; cbn; auto : session.
#[local] Hint Extern 2 (Session.preserves _ (if ?b then _ else _)) =>
  destruct b : session.

Section Fetches.

Context (I : App.component -> Prop).

Hypothesis preserves_set :
  forall f, Session.keeps_snapshot f -> Session.preserves I (App.set f).
Hypothesis preserves_setWeather :
  forall v, Session.preserves I (App.setWeather v).
Hypothesis preserves_render : Session.preserves I App.render.

Lemma preserves_fetchWeatherByCity (cityName : string)
    (wf : App.promise (App.response snapshot))
    (ff : App.promise (App.response (option forecast_json))) :
  Session.preserves I (App.fetchWeatherByCity cityName wf ff).
Proof.
  unfold App.fetchWeatherByCity, App.start_fetchOneCallData, App.setLoading,
    App.setError, App.setHasLoadedWeather, App.setForecast,
    App.setOneCallData.
  eauto 60 with session nocore.
Qed.

Lemma preserves_fetchWeatherByCoords (latitude longitude : Q)
    (wf : App.promise (App.response snapshot))
    (ff : App.promise (App.response (option forecast_json))) :
  Session.preserves I (App.fetchWeatherByCoords latitude longitude wf ff).
Proof.
  unfold App.fetchWeatherByCoords, App.start_fetchOneCallData, App.setLoading,
    App.setError, App.setHasLoadedWeather, App.setForecast, App.setCity,
    App.setOneCallData.
  eauto 60 with session nocore.
Qed.

End Fetches.

Section Handlers.

Context (I : App.component -> Prop).

Hypothesis preserves_set :
  forall f, Session.keeps_snapshot f -> Session.preserves I (App.set f).
Hypothesis preserves_render : Session.preserves I App.render.
Hypothesis preserves_city :
  forall cityName wf ff,
    Session.preserves I (App.fetchWeatherByCity cityName wf ff).
Hypothesis preserves_coords :
  forall latitude longitude wf ff,
    Session.preserves I (App.fetchWeatherByCoords latitude longitude wf ff).

Lemma preserves_fetchOneCallData
    (v30 v25 : App.promise (App.response (option onecall_json))) :
  Session.preserves I (App.fetchOneCallData v30 v25).
Proof.
  unfold App.fetchOneCallData, App.try_catch, App.setOneCallData.
  eauto 40 with session nocore.
Qed.

Lemma preserves_handleSearch
    (wf : App.promise (App.response snapshot))
    (ff : App.promise (App.response (option forecast_json))) :
  Session.preserves I (Session.handleSearch wf ff).
Proof.
  intros c. unfold Session.handleSearch, Session.handleSearch_with.
  generalize (Session.city_trim (App.city (App.current c))). intros v.
  revert c.
  change (Session.preserves I
            (App.and_then (App.eval v)
               (fun trimmed =>
                  if (trimmed =? "")%string then App.ret tt
                  else App.and_then (App.eval v)
                         (fun cityName =>
                            App.fetchWeatherByCity cityName wf ff)))).
  eauto 20 with session nocore.
Qed.

Lemma preserves_getLocation (permission : App.promise string)
    (position : App.promise Session.location_object)
    (wf : App.promise (App.response snapshot))
    (ff : App.promise (App.response (option forecast_json))) :
  Session.preserves I (Session.getLocation permission position wf ff).
Proof.
  unfold Session.getLocation, App.try_catch, App.setLoading, App.setError.
  eauto 40 with session nocore.
Qed.

Lemma preserves_handler (e : Session.event) :
  Session.preserves I (Session.handler e).
Proof.
  destruct e; cbn [Session.handler].
  - apply preserves_set. intros s. cbn. auto.
  - apply preserves_handleSearch.
  - apply preserves_getLocation.
  - apply preserves_fetchOneCallData.
  - intros c. unfold App.toggleTemperatureUnit.
    apply preserves_set. intros s. cbn. auto.
Qed.

(** What [I] gives for the state that an event leaves. *)
Lemma preserves_event (e : Session.event) (s : App.state)
    (c : App.component) :
  I (App.mkComponent s false) ->
  App.run (Session.handler e) s = App.Done tt c -> I c.
Proof.
  intros Hs. unfold App.run.
  assert (H : Session.preserves I
                (App.and_then (Session.handler e) (fun _ => App.render))).
  { apply preserves_and_then; [apply preserves_handler |].
    intros _. exact preserves_render. }
  specialize (H (App.mkComponent s false) Hs).
  destruct (App.and_then _ _ _) as [[] c' | x c' | x]; try discriminate.
  intros [= <-]. exact H.
Qed.

End Handlers.

Lemma classified_set (f : App.state -> App.state) :
  Session.keeps_snapshot f ->
  Session.preserves Session.classified_or_pending (App.set f).
Proof.
  intros Hf c [Hpending | Hclassified]; [left; exact Hpending | right].
  destruct (Hf (App.current c)) as (Hw & Ht & _).
  unfold Session.classified in *. cbn. rewrite Hw, Ht. exact Hclassified.
Qed.

Lemma classified_setWeather (v : snapshot) :
  Session.preserves Session.classified_or_pending (App.setWeather v).
Proof.
  intros c [Hpending | Hclassified]; cbn.
  - left. rewrite Hpending. reflexivity.
  - destruct v as [data |]; [left; apply orb_true_r |].
    destruct (App.weather (App.current c)) eqn:Hw;
      [left; apply orb_true_r |].
    right. exact Logic.I.
Qed.

(** After a render the weather type is the classification of the
    snapshot, and no change of the snapshot is pending. *)
Lemma render_classified (c c' : App.component) :
  Session.classified_or_pending c ->
  App.render c = App.Done tt c' ->
  Session.classified (App.current c') /\ App.weather_changed c' = false.
Proof.
  intros Hc. unfold App.render, App.useEffect_weather.
  destruct (App.weather_changed c) eqn:Hflag.
  - cbn [App.current].
    destruct (App.weather (App.current c)) as [data |] eqn:Hw.
    + destruct (getWeatherType (Some data)) as [type | e] eqn:Htype;
        [| discriminate].
      intros [= <-]. unfold Session.classified. cbn. rewrite Hw.
      split; [exact Htype | reflexivity].
    + intros [= <-]. unfold Session.classified. cbn. rewrite Hw.
      split; [exact Logic.I | reflexivity].
  - intros [= <-]. destruct Hc as [Hpending | Hclassified];
      [congruence | split; [exact Hclassified | exact Hflag]].
Qed.

Lemma classified_render :
  Session.preserves Session.classified_or_pending App.render.
Proof.
  intros c Hc. pose proof (render_classified c) as H.
  pose proof (render_returns c) as Hr.
  destruct (App.render c) as [[] c' | e c' | e];
    [| destruct Hr | exact Logic.I].
  right. apply (H c' Hc eq_refl).
Qed.

Lemma event_classified (e : Session.event) (s s' : App.state) :
  Session.classified s ->
  App.settled (App.run (Session.handler e) s) = Some s' ->
  Session.classified s'.
Proof.
  intros Hs. unfold App.run, App.and_then.
  pose proof (preserves_handler Session.classified_or_pending classified_set
                classified_render
                (preserves_fetchWeatherByCity _ classified_set
                   classified_setWeather classified_render)
                (preserves_fetchWeatherByCoords _ classified_set
                   classified_setWeather classified_render)
                e (App.mkComponent s false) (or_intror Hs)) as He.
  destruct (Session.handler e _) as [[] c | x c | x];
    [| discriminate | discriminate].
  pose proof (render_classified c) as H.
  destruct (App.render c) as [[] c' | x c' | x];
    [| discriminate | discriminate].
  cbn. intros [= <-]. apply (H c' He eq_refl).
Qed.

Lemma loaded_set (f : App.state -> App.state) :
  Session.keeps_snapshot f -> Session.preserves Session.loaded (App.set f).
Proof.
  intros Hf c Hc. destruct (Hf (App.current c)) as (_ & _ & Hl).
  exact (Hl Hc).
Qed.

Lemma loaded_setWeather (v : snapshot) :
  Session.preserves Session.loaded (App.setWeather v).
Proof. intros c Hc. exact Hc. Qed.

Lemma loaded_render : Session.preserves Session.loaded App.render.
Proof.
  intros c Hc.
  pose proof (unchanged_render App.hasLoadedWeather (fun _ _ => eq_refl) c)
    as H.
  unfold Session.loaded in *.
  destruct (App.render c) as [[] c' | e c' | e]; try exact Logic.I;
    congruence.
Qed.

Lemma event_loaded (e : Session.event) (s s' : App.state) :
  App.hasLoadedWeather s = true ->
  App.settled (App.run (Session.handler e) s) = Some s' ->
  App.hasLoadedWeather s' = true.
Proof.
  intros Hs Hrun.
  destruct (App.run (Session.handler e) s) as [[] c | x c | x] eqn:He;
    try discriminate.
  injection Hrun as <-.
  exact (preserves_event Session.loaded loaded_set loaded_render
           (preserves_fetchWeatherByCity _ loaded_set loaded_setWeather
              loaded_render)
           (preserves_fetchWeatherByCoords _ loaded_set loaded_setWeather
              loaded_render)
           e s c Hs He).
Qed.

Lemma nothing_before_load_set (f : App.state -> App.state) :
  Session.keeps_snapshot f ->
  Session.preserves Session.nothing_before_load (App.set f).
Proof.
  intros Hf c Hc. destruct (Hf (App.current c)) as (Hw & Ht & Hl).
  unfold Session.nothing_before_load in *. cbn. intros Hfalse.
  rewrite Hw, Ht. apply Hc.
  destruct (App.hasLoadedWeather (App.current c)); [| reflexivity].
  rewrite (Hl eq_refl) in Hfalse. discriminate.
Qed.

Lemma nothing_before_load_render :
  Session.preserves Session.nothing_before_load App.render.
Proof.
  intros c Hc. unfold App.render, App.useEffect_weather.
  destruct (App.weather_changed c); [| exact Hc]. cbn [App.current].
  destruct (App.weather (App.current c)) as [data |] eqn:Hw; [| exact Hc].
  destruct (getWeatherType (Some data)) as [type | e]; [| exact Logic.I].
  unfold Session.nothing_before_load in *. cbn. intros Hfalse.
  destruct (Hc Hfalse) as [Hnone _]. congruence.
Qed.

Lemma nothing_before_load_clear :
  Session.preserves Session.nothing_before_load (App.setWeather None).
Proof. intros c Hc. cbn. intros Hfalse. split; [reflexivity | apply Hc, Hfalse]. Qed.

(** Once [setHasLoadedWeather(true)] has run, the rest of a function
    keeps it. *)
Lemma loaded_then_kept {A : Type} (k : App.action A) (c : App.component) :
  Session.preserves Session.loaded k ->
  match
    App.and_then (App.setHasLoadedWeather true) (fun _ => k) c
  with
  | App.Done _ c' => Session.nothing_before_load c'
  | App.Raised _ c' => Session.nothing_before_load c'
  | App.Crashed _ => True
  end.
Proof.
  intros Hk. unfold App.and_then. cbn.
  match goal with
  | |- match k ?c1 with _ => _ end =>
      specialize (Hk c1 eq_refl); destruct (k c1) as [a c' | e c' | e];
      try exact Logic.I
  end; intros Hfalse; unfold Session.loaded in Hk; congruence.
Qed.

Lemma nothing_before_load_city {A : Type} (weatherData : snapshot)
    (k : App.action A) :
  Session.preserves Session.loaded k ->
  Session.preserves Session.nothing_before_load
    (App.and_then (App.setWeather weatherData)
       (fun _ => App.and_then (App.setHasLoadedWeather true) (fun _ => k))).
Proof.
  intros Hk c _. unfold App.and_then at 1. cbn [App.setWeather].
  apply loaded_then_kept, Hk.
Qed.

Lemma nothing_before_load_coords {A : Type} (weatherData : snapshot)
    (k : App.action A) :
  Session.preserves Session.loaded k ->
  Session.preserves Session.nothing_before_load
    (App.and_then (App.setWeather weatherData)
       (fun _ =>
          App.and_then (App.eval (name_arg weatherData))
            (fun cityOfData =>
               App.and_then (App.setCity cityOfData)
                 (fun _ =>
                    App.and_then (App.setHasLoadedWeather true)
                      (fun _ => k))))).
Proof.
  intros Hk c Hc. destruct weatherData as [data |].
  - unfold App.and_then at 1 2 3.
    cbn [App.setWeather name_arg App.eval App.ret App.setCity App.set].
    apply loaded_then_kept, Hk.
  - pose proof (nothing_before_load_clear c Hc) as Hclear.
    unfold App.and_then at 1. cbn [name_arg App.eval].
    destruct (App.setWeather None c) as [[] c1 | e c1 | e]; exact Hclear.
Qed.

Lemma nothing_before_load_fetchWeatherByCity (cityName : string)
    (wf : App.promise (App.response snapshot))
    (ff : App.promise (App.response (option forecast_json))) :
  Session.preserves Session.nothing_before_load
    (App.fetchWeatherByCity cityName wf ff).
Proof.
  pose proof loaded_set. pose proof loaded_render.
  pose proof nothing_before_load_set. pose proof nothing_before_load_render.
  pose proof nothing_before_load_clear.
  pose proof (@nothing_before_load_city unit).
  unfold App.fetchWeatherByCity, App.start_fetchOneCallData, App.setLoading,
    App.setError, App.setForecast, App.setOneCallData.
  eauto 60 with session nocore.
Qed.

Lemma nothing_before_load_fetchWeatherByCoords (latitude longitude : Q)
    (wf : App.promise (App.response snapshot))
    (ff : App.promise (App.response (option forecast_json))) :
  Session.preserves Session.nothing_before_load
    (App.fetchWeatherByCoords latitude longitude wf ff).
Proof.
  pose proof loaded_set. pose proof loaded_render.
  pose proof nothing_before_load_set. pose proof nothing_before_load_render.
  pose proof (@nothing_before_load_coords unit).
  unfold App.fetchWeatherByCoords, App.start_fetchOneCallData, App.setLoading,
    App.setError, App.setForecast, App.setOneCallData.
  eauto 60 with session nocore.
Qed.

Lemma event_nothing_before_load (e : Session.event) (s s' : App.state) :
  (App.hasLoadedWeather s = false ->
   App.weather s = None /\ App.weatherType s = "default") ->
  App.settled (App.run (Session.handler e) s) = Some s' ->
  App.hasLoadedWeather s' = false ->
  App.weather s' = None /\ App.weatherType s' = "default".
Proof.
  intros Hs Hrun.
  destruct (App.run (Session.handler e) s) as [[] c | x c | x] eqn:He;
    try discriminate.
  injection Hrun as <-.
  exact (preserves_event Session.nothing_before_load nothing_before_load_set
           nothing_before_load_render nothing_before_load_fetchWeatherByCity
           nothing_before_load_fetchWeatherByCoords e s c Hs He).
Qed.

Lemma ends_idle_finally {A : Type} (body : App.action A)
    (handler : exn -> App.action A) :
  Session.ends_idle
    (App.try_catch_finally body handler (App.setLoading false)).
Proof.
  intros c. unfold App.try_catch_finally.
  destruct (body c) as [a c1 | e c1 | e]; [reflexivity | | exact Logic.I].
  destruct (handler e c1) as [a c2 | e2 c2 | e2];
    [reflexivity | reflexivity | exact Logic.I].
Qed.

Lemma ends_idle_try_catch {A : Type} (body : App.action A)
    (handler : exn -> App.action A) :
  Session.ends_idle_when_done body ->
  (forall e, Session.ends_idle (handler e)) ->
  Session.ends_idle (App.try_catch body handler).
Proof.
  intros Hb Hh c. unfold App.try_catch, App.try_catch_finally.
  specialize (Hb c). destruct (body c) as [a c1 | e c1 | e];
    [exact Hb | | exact Logic.I].
  specialize (Hh e c1). destruct (handler e c1) as [a c2 | e2 c2 | e2];
    exact Hh.
Qed.

Lemma ends_idle_when_done_and_then {A A' : Type} (m : App.action A)
    (k : A -> App.action A') :
  (forall a, Session.ends_idle_when_done (k a)) ->
  Session.ends_idle_when_done (App.and_then m k).
Proof.
  intros Hk c. unfold App.and_then.
  destruct (m c) as [a c1 | e c1 | e]; try exact Logic.I. apply Hk.
Qed.

Lemma ends_idle_when_done_after {A A' : Type} (m : App.action A)
    (k : A -> App.action A') :
  Session.ends_idle m -> (forall a, App.unchanged App.loading (k a)) ->
  Session.ends_idle_when_done (App.and_then m k).
Proof.
  intros Hm Hk c. unfold App.and_then.
  specialize (Hm c). destruct (m c) as [a c1 | e c1 | e]; try exact Logic.I.
  specialize (Hk a c1). destruct (k a c1) as [a' c2 | e c2 | e];
    try exact Logic.I.
  congruence.
Qed.

Lemma unchanged_fetchOneCallData {B : Type} (f : App.state -> B)
    (v30 v25 : App.promise (App.response (option onecall_json))) :
  App.ignores_weatherType f ->
  (forall s data, f (Session.with_oneCallData s data) = f s) ->
  App.unchanged f (App.fetchOneCallData v30 v25).
Proof.
  intros Hf Hdata.
  assert (Hset : forall data, App.unchanged f (App.setOneCallData data))
    by (intros data c; apply Hdata).
  unfold App.fetchOneCallData, App.try_catch.
  apply unchanged_try_catch_finally; [| intros e; apply Hset |
                                      apply unchanged_ret].
  eauto 40 with frames nocore.
Qed.

Lemma ends_idle_getLocation (permission : App.promise string)
    (position : App.promise Session.location_object)
    (wf : App.promise (App.response snapshot))
    (ff : App.promise (App.response (option forecast_json))) :
  Session.ends_idle (Session.getLocation permission position wf ff).
Proof.
  unfold Session.getLocation. apply ends_idle_try_catch.
  - apply ends_idle_when_done_and_then. intros _.
    apply ends_idle_when_done_and_then. intros status.
    destruct (negb (status =? "granted")%string).
    + intros c. reflexivity.
    + apply ends_idle_when_done_and_then. intros location.
      apply ends_idle_when_done_and_then. intros args.
      apply ends_idle_when_done_after.
      * apply ends_idle_finally.
      * intros _. eauto with frames nocore.
  - intros e c. reflexivity.
Qed.

Lemma run_ends_idle (m : App.action unit) (s s' : App.state) :
  Session.ends_idle m ->
  App.settled (App.run m s) = Some s' -> App.loading s' = false.
Proof.
  intros Hm. unfold App.run, App.and_then.
  specialize (Hm (App.mkComponent s false)).
  destruct (m _) as [[] c | e c | e]; try discriminate.
  pose proof (unchanged_render App.loading (fun _ _ => eq_refl) c) as Hr.
  destruct (App.render c) as [[] c' | e c' | e]; try discriminate.
  cbn. intros [= <-]. congruence.
Qed.

Lemma event_idle (e : Session.event) (s s' : App.state) :
  App.loading s = false ->
  App.settled (App.run (Session.handler e) s) = Some s' ->
  App.loading s' = false.
Proof.
  intros Hs. destruct e as [text | wf ff | permission position wf ff
                           | v30 v25 |]; cbn [Session.handler].
  - intros [= <-]. exact Hs.
  - unfold App.run, Session.handleSearch, Session.handleSearch_with.
    unfold App.and_then at 1 2.
    cbn [App.current].
    destruct (Session.city_trim (App.city s)) as [trimmed | x];
      [| discriminate].
    cbn [App.eval App.ret]. destruct (trimmed =? "")%string.
    + intros [= <-]. exact Hs.
    + apply (run_ends_idle (App.fetchWeatherByCity trimmed wf ff)).
      apply ends_idle_finally.
  - apply run_ends_idle, ends_idle_getLocation.
  - intros Hrun. rewrite <- Hs. revert Hrun.
    apply (run_unchanged App.loading); [intros ? ?; reflexivity |].
    apply unchanged_fetchOneCallData; intros ? ?; reflexivity.
  - intros [= <-]. exact Hs.
Qed.

Lemma unchanged_isCelsius_fetchWeatherByCity (cityName : string)
    (wf : App.promise (App.response snapshot))
    (ff : App.promise (App.response (option forecast_json))) :
  App.unchanged App.isCelsius (App.fetchWeatherByCity cityName wf ff).
Proof.
  unfold App.fetchWeatherByCity.
  apply unchanged_try_catch_finally; [| intros e |];
    eauto 40 with frames nocore.
Qed.

Lemma unchanged_isCelsius_fetchWeatherByCoords (latitude longitude : Q)
    (wf : App.promise (App.response snapshot))
    (ff : App.promise (App.response (option forecast_json))) :
  App.unchanged App.isCelsius
    (App.fetchWeatherByCoords latitude longitude wf ff).
Proof.
  unfold App.fetchWeatherByCoords.
  apply unchanged_try_catch_finally; [| intros e |];
    eauto 40 with frames nocore.
Qed.

Lemma event_unit (e : Session.event) (s s' : App.state) :
  App.settled (App.run (Session.handler e) s) = Some s' ->
  App.isCelsius s'
  = match e with
    | Session.Toggled => negb (App.isCelsius s)
    | _ => App.isCelsius s
    end.
Proof.
  destruct e as [text | wf ff | permission position wf ff | v30 v25 |];
    cbn [Session.handler].
  - intros [= <-]. reflexivity.
  - unfold App.run, Session.handleSearch, Session.handleSearch_with.
    unfold App.and_then at 1 2.
    cbn [App.current].
    destruct (Session.city_trim (App.city s)) as [trimmed | x];
      [| discriminate].
    cbn [App.eval App.ret]. destruct (trimmed =? "")%string.
    + intros [= <-]. reflexivity.
    + apply (run_unchanged App.isCelsius
               (App.fetchWeatherByCity trimmed wf ff));
        [intros ? ?; reflexivity |].
      apply unchanged_isCelsius_fetchWeatherByCity.
  - apply (run_unchanged App.isCelsius); [intros ? ?; reflexivity |].
    pose proof unchanged_isCelsius_fetchWeatherByCoords.
    unfold Session.getLocation, App.try_catch.
    apply unchanged_try_catch_finally; [| intros e |];
      eauto 40 with frames nocore.
  - apply (run_unchanged App.isCelsius); [intros ? ?; reflexivity |].
    apply unchanged_fetchOneCallData; intros ? ?; reflexivity.
  - intros [= <-]. reflexivity.
Qed.

(** X20. At rest, the weather type is the classification of the snapshot
    on display.  After any sequence of events from the initial state
    (text typed, searches, location requests, One Call answers, unit
    toggles, with any answers of the network) that the component
    survives, a state that shows a snapshot has as its weather type what
    [getWeatherType] gives for that snapshot. *)
Theorem session_classified (events : list Session.event) (s : App.state) :
  Session.session events App.initial = Some s ->
  forall data,
    App.weather s = Some data ->
    getWeatherType (Some data) = Normal (App.weatherType s).
Proof.
  assert (H : forall s0, Session.classified s0 ->
                         Session.session events s0 = Some s ->
                         Session.classified s).
  { induction events as [| e rest IH]; intros s0 H0; cbn [Session.session].
    - intros [= <-]. exact H0.
    - destruct (App.settled (App.run (Session.handler e) s0)) as [s1 |] eqn:He;
        [| discriminate].
      apply IH. exact (event_classified e s0 s1 H0 He). }
  intros Hs data Hdata. specialize (H App.initial Logic.I Hs).
  unfold Session.classified in H. rewrite Hdata in H. exact H.
Qed.

Lemma session_classified_witness :
  getWeatherType (Some Scenario.oslo) = Normal "rain".
Proof.
  refine (session_classified
           [Session.Typed "Oslo ";
            Session.Searched (Scenario.answered (Some Scenario.oslo))
              (Scenario.answered (Some Scenario.oslo_forecast));
            Session.Toggled;
            Session.Searched Scenario.not_found Scenario.unreachable;
            Session.Located (App.Fulfilled "granted")
              (App.Fulfilled
                 (Session.mkLocation (defined (5991 # 100, 1075 # 100))))
              (Scenario.answered (Some Scenario.oslo))
              (Scenario.answered (Some Scenario.oslo_forecast))]
           (App.mkState (defined "Oslo") (Some Scenario.oslo)
              [Scenario.oslo_noon] None false None "rain" true true)
           _ Scenario.oslo eq_refl).
  vm_compute. reflexivity.
Defined.

(** X21. No event leaves the spinner on.  After any sequence of events
    from the initial state that the component survives, [loading] is
    false: every way through [fetchWeatherByCity], [fetchWeatherByCoords]
    and [getLocation] ends with [setLoading(false)]. *)
Theorem session_idle (events : list Session.event) (s : App.state) :
  Session.session events App.initial = Some s -> App.loading s = false.
Proof.
  assert (H : forall s0, App.loading s0 = false ->
                         Session.session events s0 = Some s ->
                         App.loading s = false).
  { induction events as [| e rest IH]; intros s0 H0; cbn [Session.session].
    - intros [= <-]. exact H0.
    - destruct (App.settled (App.run (Session.handler e) s0)) as [s1 |] eqn:He;
        [| discriminate].
      apply IH. exact (event_idle e s0 s1 H0 He). }
  exact (H App.initial eq_refl).
Qed.

Lemma session_idle_witness :
  App.loading
    (Session.with_error
       (App.mkState (defined "Oslo") None [] None false None "default" false
          false) "Location permission denied")
  = false.
Proof.
  refine (session_idle
           [Session.Typed "Oslo";
            Session.Located (App.Fulfilled "denied")
              (App.Rejected (Error "no position"))
              Scenario.unreachable Scenario.unreachable]
           _ _).
  vm_compute. reflexivity.
Defined.

(** X22. The quadrant showcase.  The screen shows the showcase while
    [hasLoadedWeather] is false.  In a session from the initial state,
    as long as the showcase is on screen no snapshot is on display and
    the weather type is still 'default'; and once [hasLoadedWeather] is
    true it stays true, so the showcase never comes back, whatever fails
    afterwards. *)
Theorem session_showcase (events more : list Session.event)
    (s s' : App.state) :
  Session.session events App.initial = Some s ->
  Session.session more s = Some s' ->
  (Screen.background_animation s = Some Screen.QuadrantShowcase <->
   App.hasLoadedWeather s = false)
  /\ (App.hasLoadedWeather s = false ->
      App.weather s = None /\ App.weatherType s = "default")
  /\ (App.hasLoadedWeather s = true -> App.hasLoadedWeather s' = true).
Proof.
  intros Hs Hmore. split; [| split].
  - unfold Screen.background_animation, Screen.WeatherAnimation.
    destruct (App.hasLoadedWeather s); cbn [negb].
    + split; [| discriminate].
      repeat match goal with
             | |- context [if ?b then _ else _] => destruct b
             end; discriminate.
    + split; reflexivity.
  - assert (H : forall s0,
               (App.hasLoadedWeather s0 = false ->
                App.weather s0 = None /\ App.weatherType s0 = "default") ->
               Session.session events s0 = Some s ->
               App.hasLoadedWeather s = false ->
               App.weather s = None /\ App.weatherType s = "default").
    { clear Hs Hmore.
      induction events as [| e rest IH]; intros s0 H0; cbn [Session.session].
      - intros [= <-]. exact H0.
      - destruct (App.settled (App.run (Session.handler e) s0)) as [s1 |]
          eqn:He; [| discriminate].
        apply IH. exact (event_nothing_before_load e s0 s1 H0 He). }
    apply (H App.initial); [intros _; split; reflexivity | exact Hs].
  - clear Hs. revert s Hmore.
    induction more as [| e rest IH]; intros s0; cbn [Session.session].
    + intros [= <-] H0. exact H0.
    + destruct (App.settled (App.run (Session.handler e) s0)) as [s1 |] eqn:He;
        [| discriminate].
      intros Hrest H0. apply (IH s1 Hrest).
      exact (event_loaded e s0 s1 H0 He).
Qed.

(** X23. The unit of display is changed by the unit button only.  After a
    sequence of events that the component survives, [isCelsius] is what
    it was when the button was pressed an even number of times, and the
    opposite otherwise: no fetch, failed or not, resets the unit. *)
Theorem session_unit (events : list Session.event) (s s' : App.state) :
  Session.session events s = Some s' ->
  App.isCelsius s'
  = xorb (App.isCelsius s) (Nat.odd (Session.toggles events)).
Proof.
  revert s. induction events as [| e rest IH]; intros s; cbn [Session.session].
  - intros [= <-]. cbn. apply eq_sym, xorb_false_r.
  - destruct (App.settled (App.run (Session.handler e) s)) as [s1 |] eqn:He;
      [| discriminate].
    intros Hrest. rewrite (IH s1 Hrest), (event_unit e s s1 He).
    destruct e; cbn [Session.toggles]; try reflexivity.
    rewrite Nat.odd_succ, <- Nat.negb_odd.
    destruct (App.isCelsius s), (Nat.odd (Session.toggles rest)); reflexivity.
Qed.

Lemma session_showcase_witness :
  (Screen.background_animation
     (App.mkState (defined "Atlantis") None [] None false
        (Some "City not found") "default" false false)
   = Some Screen.QuadrantShowcase <-> false = false)
  /\ (false = false -> @None weather_json = None /\ "default" = "default")
  /\ (false = true -> true = true).
Proof.
  refine (session_showcase
            [Session.Typed "Atlantis";
             Session.Searched Scenario.not_found Scenario.unreachable]
            [Session.Typed "Oslo";
             Session.Searched (Scenario.answered (Some Scenario.oslo))
               (Scenario.answered (Some Scenario.oslo_forecast))]
            (App.mkState (defined "Atlantis") None [] None false
               (Some "City not found") "default" false false)
            (App.mkState (defined "Oslo") (Some Scenario.oslo)
               [Scenario.oslo_noon] None false None "rain" false true)
            _ _); vm_compute; reflexivity.
Defined.

Lemma session_unit_witness : true = xorb false (Nat.odd 3).
Proof.
  refine (session_unit
            [Session.Typed "Atlantis"; Session.Toggled;
             Session.Searched Scenario.not_found Scenario.unreachable;
             Session.Toggled; Session.Toggled]
            App.initial
            (App.mkState (defined "Atlantis") None [] None false
               (Some "City not found") "default" true false)
            _).
  vm_compute. reflexivity.
Defined.

(** ** The fetch functions: a successful fetch *)

Lemma filter_noon_defined (items : list forecast_item) :
  (forall item, In item items -> dt_txt item <> undefined) ->
  filter_noon items = Normal (filter Session.noon items).
Proof.
  induction items as [| item rest IH]; intros Hall; [reflexivity |].
  cbn [filter_noon filter]. unfold Session.noon at 1.
  assert (Hitem : dt_txt item <> undefined) by (apply Hall; left; reflexivity).
  destruct (dt_txt item) as [| text]; [contradiction |].
  cbn [call_includes bind]. rewrite IH by (intros i Hi; apply Hall; right; exact Hi).
  reflexivity.
Qed.

(** X18. A search that succeeds.  When the provider answers the weather
    request with a document that has a [coord] object and that
    [getWeatherType] classifies, and the forecast request with a list
    whose readings all have a [dt_txt], then [fetchWeatherByCity] ends
    with that snapshot on display, its classification as the weather
    type, no error, the spinner off, and as forecast the readings of the
    list whose [dt_txt] includes '12:00:00', in the order of the list.
    The text of the city field and the unit are as before, and
    [response.ok] of the forecast answer is not looked at.  Nothing is
    said of the extended conditions: the [fetchOneCallData] that the
    function starts writes that cell on its own. *)
Theorem fetchWeatherByCity_success (cityName : string) (data : weather_json)
    (position : coordinates) (items : list forecast_item) (ok_forecast : bool)
    (type : string) (s : App.state) :
  coord data = defined position ->
  getWeatherType (Some data) = Normal type ->
  (forall item, In item items -> dt_txt item <> undefined) ->
  exists s',
    App.settled
      (App.run
         (App.fetchWeatherByCity cityName
            (App.Fulfilled (App.mkResponse true (App.Fulfilled (Some data))))
            (App.Fulfilled
               (App.mkResponse ok_forecast
                  (App.Fulfilled (Some (mkForecast (defined items)))))))
         s)
    = Some s'
    /\ App.weather s' = Some data
    /\ App.weatherType s' = type
    /\ App.forecast s' = filter Session.noon items
    /\ App.error s' = None
    /\ App.loading s' = false
    /\ App.hasLoadedWeather s' = true
    /\ App.city s' = App.city s
    /\ App.isCelsius s' = App.isCelsius s.
Proof.
  intros Hcoord Htype Hitems.
  unfold App.run, App.fetchWeatherByCity, App.try_catch_finally, App.await,
    App.and_then, App.render, App.useEffect_weather.
  cbn -[getWeatherType filter_noon filter].
  rewrite Hcoord. cbn -[getWeatherType filter_noon filter].
  rewrite Htype. cbn -[getWeatherType filter_noon filter].
  rewrite (filter_noon_defined items Hitems).
  cbn -[getWeatherType filter_noon filter].
  eexists. split; [reflexivity |]. cbn. repeat split; reflexivity.
Qed.

Lemma fetchWeatherByCity_success_witness :
  exists s',
    App.settled
      (App.run
         (App.fetchWeatherByCity "Oslo"
            (App.Fulfilled
               (App.mkResponse true (App.Fulfilled (Some Scenario.oslo))))
            (App.Fulfilled
               (App.mkResponse false
                  (App.Fulfilled
                     (Some
                        (mkForecast
                           (defined
                              [Scenario.oslo_evening;
                               Scenario.oslo_noon])))))))
         App.initial)
    = Some s'
    /\ App.weather s' = Some Scenario.oslo
    /\ App.weatherType s' = "rain"
    /\ App.forecast s'
       = filter Session.noon [Scenario.oslo_evening; Scenario.oslo_noon]
    /\ App.error s' = None
    /\ App.loading s' = false
    /\ App.hasLoadedWeather s' = true
    /\ App.city s' = App.city App.initial
    /\ App.isCelsius s' = App.isCelsius App.initial.
Proof.
  apply (fetchWeatherByCity_success "Oslo" Scenario.oslo
           (mkCoord (defined (5991 # 100)) (defined (1075 # 100)))
           [Scenario.oslo_evening; Scenario.oslo_noon] false "rain"
           App.initial eq_refl eq_refl).
  intros item [<- | [<- | []]]; discriminate.
Defined.

(** X19. A location fetch that succeeds.  When the weather request is
    answered with a document that [getWeatherType] classifies, and the
    forecast request with a list whose readings all have a [dt_txt],
    then [fetchWeatherByCoords] ends with that snapshot on display, its
    classification as the weather type, the [name] of the document in
    the city field, no error, the spinner off, and as forecast the
    readings of the list whose [dt_txt] includes '12:00:00', in the
    order of the list.  [response.ok] is looked at for neither answer,
    and the unit is as before.  Nothing is said of the extended
    conditions: the [fetchOneCallData] that the function starts writes
    that cell on its own. *)
Theorem fetchWeatherByCoords_success (latitude longitude : Q)
    (data : weather_json) (items : list forecast_item)
    (ok_weather ok_forecast : bool) (type : string) (s : App.state) :
  getWeatherType (Some data) = Normal type ->
  (forall item, In item items -> dt_txt item <> undefined) ->
  exists s',
    App.settled
      (App.run
         (App.fetchWeatherByCoords latitude longitude
            (App.Fulfilled
               (App.mkResponse ok_weather (App.Fulfilled (Some data))))
            (App.Fulfilled
               (App.mkResponse ok_forecast
                  (App.Fulfilled (Some (mkForecast (defined items)))))))
         s)
    = Some s'
    /\ App.weather s' = Some data
    /\ App.weatherType s' = type
    /\ App.city s' = name data
    /\ App.forecast s' = filter Session.noon items
    /\ App.error s' = None
    /\ App.loading s' = false
    /\ App.hasLoadedWeather s' = true
    /\ App.isCelsius s' = App.isCelsius s.
Proof.
  intros Htype Hitems.
  unfold App.run, App.fetchWeatherByCoords, App.try_catch_finally, App.await,
    App.and_then, App.render, App.useEffect_weather.
  cbn -[getWeatherType filter_noon filter].
  rewrite Htype. cbn -[getWeatherType filter_noon filter].
  rewrite (filter_noon_defined items Hitems).
  cbn -[getWeatherType filter_noon filter].
  eexists. split; [reflexivity |]. cbn. repeat split; reflexivity.
Qed.

Lemma fetchWeatherByCoords_success_witness :
  exists s',
    App.settled
      (App.run
         (App.fetchWeatherByCoords (-1205 # 100) (-7704 # 100)
            (App.Fulfilled
               (App.mkResponse true (App.Fulfilled (Some Scenario.lima))))
            (App.Fulfilled
               (App.mkResponse true
                  (App.Fulfilled
                     (Some (mkForecast (defined [Scenario.oslo_evening])))))))
         Scenario.showing_oslo)
    = Some s'
    /\ App.weather s' = Some Scenario.lima
    /\ App.weatherType s' = "night"
    /\ App.city s' = name Scenario.lima
    /\ App.forecast s' = filter Session.noon [Scenario.oslo_evening]
    /\ App.error s' = None
    /\ App.loading s' = false
    /\ App.hasLoadedWeather s' = true
    /\ App.isCelsius s' = App.isCelsius Scenario.showing_oslo.
Proof.
  apply (fetchWeatherByCoords_success (-1205 # 100) (-7704 # 100)
           Scenario.lima [Scenario.oslo_evening] true true "night"
           Scenario.showing_oslo eq_refl).
  intros item [<- | []]; discriminate.
Defined.
